(** * QueryTube: semantic search over a fixed corpus of video embeddings

    A shallow embedding of [app.py]: the start-up block that loads the two
    asset files, the cached query encoder [encode_query] and the generator
    [search_generator] that ranks the corpus rows against a query.

    Conventions.
    - A Python [str] is a list of Unicode code points.
    - A Python exception is a value of [Py.exn]; a call that may raise
      returns a [Py.result].
    - Floating point similarity scores are kept abstract: a type with the
      total preorder that [<=] gives on finite floats ([FloatOrder]).
    - The pretrained model, the cosine similarity kernel and [np.argsort]
      are library code; they enter as parameters with the contract the
      program relies on.  The model may raise.  The kernel scores a query
      vector against a row of the same dimension with finite entries; the
      one check of [cosine_similarity] that such inputs can fail, a matrix
      without rows, raises [ValueError].  [np.argsort] is any function
      that lists the positions by ascending value, and a stable one is
      given as a concrete instance.
    - Formatting the publish date of a record raises [ValueError] when the
      date is missing or cannot be parsed; which records those are is a
      parameter.  The markup of the result cards and the simulated view
      counts are left out: a card is the index of a row with its record. *)

From stdpp Require Import base list numbers sorting.
From Stdlib Require Import ZArith.

Local Open Scope Z_scope.

(** ** Python built-ins used by the program *)

Module Py.

(** The exception classes that occur in the program and its libraries. *)
Inductive exn : Set :=
| FileNotFoundError
| IndexError
| ValueError
| RuntimeError
| MemoryError
| OSError
| PermissionError
| EmptyDataError.

Inductive result (A : Type) : Type :=
| Ok (a : A)
| Raise (e : exn).
Global Arguments Ok {A} a.
Global Arguments Raise {A} e.

(** [str]: a sequence of code points. *)
Definition str : Type := list N.

(** [str.isspace] on one character: the code points Python treats as
    whitespace when stripping. *)
Definition isspace (c : N) : bool :=
  ((9 <=? c) && (c <=? 13) || (28 <=? c) && (c <=? 32)
   || (c =? 133) || (c =? 160) || (c =? 5760)
   || (8192 <=? c) && (c <=? 8202)
   || (c =? 8232) || (c =? 8233) || (c =? 8239) || (c =? 8287)
   || (c =? 12288))%N.

Fixpoint lstrip (s : str) : str :=
  match s with
  | [] => []
  | c :: s' => if isspace c then lstrip s' else s
  end.

Definition rstrip (s : str) : str := reverse (lstrip (reverse s)).

(** [s.strip()] *)
Definition strip (s : str) : str := rstrip (lstrip s).

(** Truth value of a string: [not s] holds for the empty string only. *)
Definition not_ (s : str) : bool :=
  match s with [] => true | _ :: _ => false end.

(** [a[start:]] for an integer [start]: a negative start counts from the
    end, and both ends are clamped into the sequence. *)
Definition slice_from {A : Type} (start : Z) (a : list A) : list A :=
  let n := Z.of_nat (length a) in
  let lo := if start <? 0 then Z.max (start + n) 0 else Z.min start n in
  drop (Z.to_nat lo) a.

(** [a[::-1]] *)
Definition reversed {A : Type} (a : list A) : list A := reverse a.

(** Exit status of the interpreter after [exit(code)]; [exit()] passes
    [None], which is reported as success. *)
Definition exit_status (code : option Z) : Z :=
  match code with
  | None => 0
  | Some c => c
  end.

End Py.

(** ** [functools.lru_cache] with a positive [maxsize] *)

Module Functools.
Section lru_cache.
Context {K V : Type} `{EqDecision K}.
Variable maxsize : nat.
Variable user_function : K → Py.result V.

(** The cache: the links from the oldest to the most recently used one,
    and the two counters reported by [cache_info()]. *)
Record cache : Type := Cache {
  links : list (K * V);
  hits : nat;
  misses : nat
}.

Definition empty : cache := Cache [] 0 0.

Fixpoint cache_get (key : K) (l : list (K * V)) : option V :=
  match l with
  | [] => None
  | (k, v) :: l' => if decide (k = key) then Some v else cache_get key l'
  end.

(** Take the link of [key] out of the queue. *)
Definition extract_link (key : K) (l : list (K * V)) : list (K * V) :=
  filter (λ kv, kv.1 ≠ key) l.

Definition keys (c : cache) : list K := (links c).*1.

(** One call of the decorated function.  A hit moves the link to the
    most recent end.  A miss counts, calls the function, and stores the
    result unless the call raised; when the cache is full the oldest
    link is dropped first. *)
Definition wrapper (key : K) (c : cache) : Py.result V * cache :=
  match cache_get key (links c) with
  | Some result =>
      (Py.Ok result,
       Cache (extract_link key (links c) ++ [(key, result)])
             (S (hits c)) (misses c))
  | None =>
      match user_function key with
      | Py.Raise e => (Py.Raise e, Cache (links c) (hits c) (S (misses c)))
      | Py.Ok result =>
          let kept :=
            if decide (length (links c) < maxsize ∨ links c = [])%nat
            then links c
            else drop 1 (links c) in
          (Py.Ok result,
           Cache (kept ++ [(key, result)]) (hits c) (S (misses c)))
      end
  end.

(** A sequence of calls, with the value or exception of each. *)
Fixpoint calls (keys : list K) (c : cache) : list (Py.result V) * cache :=
  match keys with
  | [] => ([], c)
  | key :: rest =>
      let '(r, c1) := wrapper key c in
      let '(rs, c2) := calls rest c1 in
      (r :: rs, c2)
  end.

(** Every stored result is what the function returns for its key. *)
Definition coherent (c : cache) : Prop :=
  ∀ key v, (key, v) ∈ links c → user_function key = Py.Ok v.

(** The keys for which the function returns a value. *)
Definition succeeds (key : K) : bool :=
  match user_function key with Py.Ok _ => true | Py.Raise _ => false end.

(** The distinct keys of a history ordered by their last use, the least
    recently used one first. *)
Definition recency (history : list K) : list K :=
  foldl (λ acc key, filter (λ k, k ≠ key) acc ++ [key]) [] history.

(** The last [n] items of a list. *)
Definition last_n {A : Type} (n : nat) (l : list A) : list A :=
  drop (length l - n) l.

End lru_cache.
End Functools.

(** ** NumPy: ordering of scores and [argsort] *)

(** The order of finite floating point numbers: total and transitive;
    distinct representations may compare equal. *)
Class FloatOrder (score : Type) : Type := {
  sle : score → score → bool;
  sle_total : ∀ x y, sle x y = true ∨ sle y x = true;
  sle_trans : ∀ x y z, sle x y = true → sle y z = true → sle x z = true
}.

Module Numpy.
Section argsort.
Context {score : Type} `{FloatOrder score}.

(** Strict comparison [x < y]. *)
Definition slt (x y : score) : bool := negb (sle y x).

(** Equal scores: an exact tie. *)
Definition seq_ (x y : score) : bool := sle x y && sle y x.

(** [a[i] <= a[j]] for positions of the array [a]. *)
Definition le_at (a : list score) (i j : nat) : Prop :=
  match a !! i, a !! j with
  | Some x, Some y => sle x y = true
  | _, _ => False
  end.

(** [a[i] >= a[j]]. *)
Definition ge_at (a : list score) (i j : nat) : Prop := le_at a j i.

(** [a[i] == a[j]]: the two positions hold exactly equal scores. *)
Definition tie_at (a : list score) (i j : nat) : Prop :=
  match a !! i, a !! j with
  | Some x, Some y => seq_ x y = true
  | _, _ => False
  end.

(** What the program needs from [np.argsort(a)] whatever the sort kind:
    the result lists every position of [a] once, by ascending value. *)
Definition argsort_spec (argsort : list score → list nat) : Prop :=
  ∀ a, argsort a ≡ₚ seq 0 (length a) ∧ StronglySorted (le_at a) (argsort a).

(** Ascending by value and, among equal values, by position: the order
    a stable ascending sort leaves the positions in. *)
Definition stable_lt_at (a : list score) (i j : nat) : Prop :=
  match a !! i, a !! j with
  | Some x, Some y => slt x y = true ∨ (sle x y = true ∧ (i < j)%nat)
  | _, _ => False
  end.

(** The contract of a stable argsort ([kind='stable']): every position
    once, by ascending value, equal values in their original order. *)
Definition stable_spec (argsort : list score → list nat) : Prop :=
  ∀ a, argsort a ≡ₚ seq 0 (length a)
       ∧ StronglySorted (stable_lt_at a) (argsort a).

(** A stable argsort by straight insertion: position [i] is inserted
    behind every position already placed whose value is not greater. *)
Fixpoint insert_index (a : list score) (i : nat) (l : list nat) : list nat :=
  match l with
  | [] => [i]
  | j :: l' =>
      match a !! i, a !! j with
      | Some x, Some y =>
          if slt x y then i :: j :: l' else j :: insert_index a i l'
      | _, _ => j :: insert_index a i l'
      end
  end.

Definition insertion_argsort (a : list score) : list nat :=
  foldl (λ acc i, insert_index a i acc) [] (seq 0 (length a)).

End argsort.
End Numpy.

(** ** The application *)

Section app.
(** [vector]: the array returned by the model for one query;
    [row]: one row of the embedding matrix;
    [record]: one row of the data frame. *)
Context {vector row record score : Type} `{FloatOrder score}.

(** [model.encode([query], show_progress_bar=False)] *)
Variable model_encode : Py.str → Py.result vector.
(** One entry of [cosine_similarity(query_embedding, corpus_embeddings)[0]]. *)
Variable similarity : vector → row → score.
(** [np.argsort] *)
Variable argsort : list score → list nat.
(** [pd.to_datetime(row.get('published_date', 'N/A')).strftime('%b %d, %Y')]
    for a record: the formatted date, or [None] when the date is missing
    or cannot be parsed and pandas raises [ValueError]. *)
Variable published_date : record → option Py.str.

(** *** Part 2: load and initialise *)

(** What the start-up block meets: the outcome of [pd.read_csv] and of
    [np.load], each the parsed content or the exception raised
    ([FileNotFoundError] when the file does not exist), and the outcome of
    constructing the model. *)
Record assets : Type := Assets {
  app_data_csv : Py.result (list record);
  app_embeddings_npy : Py.result (list row);
  sentence_transformer : Py.result unit
}.

(** The module level variables [df] and [corpus_embeddings]. *)
Record globals : Type := Globals {
  df : list record;
  corpus_embeddings : list row
}.

Inductive line : Set :=
| LoadingAssets         (* "Loading all assets..." *)
| LoadingModel          (* "Loading model (multi-qa-mpnet-base-dot-v1)..." *)
| AssetsLoaded          (* "All assets loaded and aligned successfully." *)
| ErrorCouldNotFind     (* "ERROR: Could not find 'app_data.csv' or
                           'app_embeddings.npy'. Please run
                           'prepare_final_assets.py' first." *)
| ExceptionText         (* print(e) *)
| Launching.            (* "Launching QueryTube (Enhanced v2.0)..." *)

Inductive process : Type :=
| Serving (g : globals) (stdout : list line)
| Exited (status : Z) (stdout : list line)
| Crashed (e : Py.exn) (stdout : list line).

(** The handler of [except FileNotFoundError]. *)
Definition file_not_found (stdout : list line) : process :=
  Exited (Py.exit_status None) (stdout ++ [ErrorCouldNotFind; ExceptionText]).

(** An exception inside the [try] block: only [FileNotFoundError] has a
    handler, any other one ends the process with its traceback. *)
Definition on_exception (e : Py.exn) (stdout : list line) : process :=
  match e with
  | Py.FileNotFoundError => file_not_found stdout
  | _ => Crashed e stdout
  end.

Definition startup (fs : assets) : process :=
  let out0 := [LoadingAssets] in
  match app_data_csv fs with
  | Py.Raise e => on_exception e out0
  | Py.Ok data =>
      match app_embeddings_npy fs with
      | Py.Raise e => on_exception e out0
      | Py.Ok embeddings =>
          let out1 := out0 ++ [LoadingModel] in
          match sentence_transformer fs with
          | Py.Raise e => on_exception e out1
          | Py.Ok _ =>
              Serving (Globals data embeddings)
                      (out1 ++ [AssetsLoaded; Launching])
          end
      end
  end.

(** The first step of the start-up that raises, with its exception. *)
Definition first_failure (fs : assets) : option Py.exn :=
  match app_data_csv fs with
  | Py.Raise e => Some e
  | Py.Ok _ =>
      match app_embeddings_npy fs with
      | Py.Raise e => Some e
      | Py.Ok _ =>
          match sentence_transformer fs with
          | Py.Raise e => Some e
          | Py.Ok _ => None
          end
      end
  end.

(** *** Part 3: core logic *)

Local Abbreviation encode_query_cache := (@Functools.cache Py.str vector).

(** [@lru_cache(maxsize=128) def encode_query(query)] *)
Definition encode_query (query : Py.str) (c : encode_query_cache)
  : Py.result vector * encode_query_cache :=
  Functools.wrapper 128 model_encode query c.

(** The pairs yielded by the generator. *)
Inductive update : Type :=
| EmptyQuery            (* "Please enter a valid search query.",
                           "Waiting for input..." *)
| Searching             (* "", "Searching..." *)
| NoResults             (* "No results found.", "Ready for new search." *)
| Results (query : Py.str) (cards : list (nat * record)) (shown : nat).
                        (* one card per index, "Displaying Top {shown} Results." *)

(** A run of the generator to exhaustion: what it yielded and whether it
    returned or raised. *)
Record run : Type := Run {
  yielded : list update;
  finished : Py.result unit
}.

(** The scores of the rows against the query vector, row by row. *)
Definition similarities (query_embedding : vector) (g : globals) : list score :=
  similarity query_embedding <$> corpus_embeddings g.

(** [cosine_similarity(query_embedding, corpus_embeddings)[0]]: the
    library refuses a matrix without rows. *)
Definition cosine_similarity_0 (query_embedding : vector) (g : globals)
  : Py.result (list score) :=
  match corpus_embeddings g with
  | [] => Py.Raise Py.ValueError
  | _ :: _ => Py.Ok (similarities query_embedding g)
  end.

(** [np.argsort(similarities)[-k:][::-1]] *)
Definition top_k_indices (sims : list score) (k : Z) : list nat :=
  Py.reversed (Py.slice_from (- k) (argsort sims)).

(** The loop over the indices: [df.iloc[idx]] raises [IndexError] for an
    index out of range, then formatting the date of the record raises
    [ValueError] when it has none; the first failure ends the loop. *)
Fixpoint cards_for (g : globals) (idxs : list nat)
  : Py.result (list (nat * record)) :=
  match idxs with
  | [] => Py.Ok []
  | idx :: rest =>
      match df g !! idx with
      | None => Py.Raise Py.IndexError
      | Some r =>
          match published_date r with
          | None => Py.Raise Py.ValueError
          | Some _ =>
              match cards_for g rest with
              | Py.Ok cs => Py.Ok ((idx, r) :: cs)
              | Py.Raise e => Py.Raise e
              end
          end
      end
  end.

(** Every record of the data frame has a date that can be formatted. *)
Definition all_dated (g : globals) : Prop :=
  Forall (λ r, is_Some (published_date r)) (df g).

Definition search_generator (g : globals) (query : Py.str) (k : Z)
    (c : encode_query_cache) : run * encode_query_cache :=
  if Py.not_ (Py.strip query) then
    (Run [EmptyQuery] (Py.Ok ()), c)
  else
    match encode_query query c with
    | (Py.Raise e, c') => (Run [Searching] (Py.Raise e), c')
    | (Py.Ok query_embedding, c') =>
        match cosine_similarity_0 query_embedding g with
        | Py.Raise e => (Run [Searching] (Py.Raise e), c')
        | Py.Ok sims =>
            let top := top_k_indices sims k in
            if (length top =? 0)%nat then
              (Run [Searching; NoResults] (Py.Ok ()), c')
            else
              match cards_for g top with
              | Py.Raise e => (Run [Searching] (Py.Raise e), c')
              | Py.Ok cards =>
                  (Run [Searching; Results query cards (length top)] (Py.Ok ()), c')
              end
        end
    end.

(** [encode_query] called on each query of a history in turn. *)
Definition encode_queries (history : list Py.str) (c : encode_query_cache)
  : list (Py.result vector) * encode_query_cache :=
  Functools.calls 128 model_encode history c.

(** The state of the cache after a history of calls in a fresh process. *)
Definition cache_after (history : list Py.str) : encode_query_cache :=
  (encode_queries history Functools.empty).2.

(** Each index paired with the item of [a] at that index. *)
Definition with_items {A : Type} (a : list A) (idxs : list nat) : list (nat * A) :=
  omap (λ i, (λ x, (i, x)) <$> a !! i) idxs.

(** The ranked result of a search: each shown index with its score. *)
Definition ranked (sims : list score) (idxs : list nat) : list (nat * score) :=
  with_items sims idxs.

(** Scores never increase along the result. *)
Definition descending (l : list (nat * score)) : Prop :=
  StronglySorted (λ p q, sle q.2 p.2 = true) l.

(** Every score is greater than all that follow it. *)
Definition strictly_descending (l : list (nat * score)) : Prop :=
  StronglySorted (λ p q, Numpy.slt q.2 p.2 = true) l.

(** [i] is shown before [j]. *)
Definition before (i j : nat) (idxs : list nat) : Prop :=
  ∃ pi pj, idxs !! pi = Some i ∧ idxs !! pj = Some j ∧ (pi < pj)%nat.

End app.

(** *** The text of a result card *)

(** The three dots that end a shortened description. *)
Definition ellipsis : Py.str := [46; 46; 46]%N.

(** [(str(description)[:150] + '...') if len(str(description)) > 150
    else str(description)], where [description] is the text of the cell. *)
Definition short_desc (description : Py.str) : Py.str :=
  if (150 <? length description)%nat
  then take 150 description ++ ellipsis
  else description.

(** ** A small concrete instance

    Scores, vectors and rows are integers, the similarity of a query vector
    and a row is their product, and the model maps a query to its length
    but runs out of memory on queries that start with an exclamation mark. *)

Module Demo.

#[global] Instance z_order : FloatOrder Z.
Proof.
  refine {| sle := Z.leb |}.
  - intros x y. destruct (Z.leb_spec x y); [by left|right].
    apply Z.leb_le. lia.
  - intros x y z ?%Z.leb_le ?%Z.leb_le. apply Z.leb_le. lia.
Defined.

Definition model_encode (query : Py.str) : Py.result Z :=
  match query with
  | 33%N :: _ => Py.Raise Py.MemoryError
  | _ => Py.Ok (Z.of_nat (length query))
  end.

Definition similarity (query_embedding row : Z) : Z := query_embedding * row.

Definition argsort : list Z → list nat := Numpy.insertion_argsort.

(** Records are numbered; those with a negative number have no date. *)
Definition published_date (r : Z) : option Py.str :=
  if r <? 0 then None else Some [].

(** Three videos whose rows score 3, 1 and 2 times the query vector. *)
Definition three : @globals Z Z := Globals [100; 101; 102] [3; 1; 2].

(** Two videos with the same embedding. *)
Definition twins : @globals Z Z := Globals [100; 101] [1; 1].

(** One record but two embedding rows. *)
Definition misaligned : @assets Z Z :=
  Assets (Py.Ok [100]) (Py.Ok [1; 2]) (Py.Ok ()).

(** The records file is absent. *)
Definition no_records : @assets Z Z :=
  Assets (Py.Raise Py.FileNotFoundError) (Py.Ok [1; 2]) (Py.Ok ()).

(** The embeddings file is absent. *)
Definition no_embeddings : @assets Z Z :=
  Assets (Py.Ok [100; 101]) (Py.Raise Py.FileNotFoundError) (Py.Ok ()).

(** The query "a", three blanks, and the query "!". *)
Definition query_a : Py.str := [97%N].
Definition blanks : Py.str := [32%N; 32%N; 32%N].
Definition query_bang : Py.str := [33%N].

(** 128 distinct one-letter queries, and one more. *)
Definition many : list Py.str := (λ n, [N.of_nat n + 1000]%N) <$> seq 0 128.
Definition one_more : Py.str := [2000%N].

Definition search :=
  search_generator model_encode similarity argsort published_date.

End Demo.

(** ** Facts about the Python built-ins *)

Section py_facts.

Lemma lstrip_nil_iff (s : Py.str) :
  Py.lstrip s = [] ↔ Forall (λ c, Py.isspace c = true) s.
Proof.
  induction s as [|c s IH]; simpl.
  - split; [constructor|done].
  - destruct (Py.isspace c) eqn:E.
    + rewrite IH. split; [by constructor|by inversion 1].
    + split; [done|]. inversion 1; congruence.
Qed.

Lemma lstrip_head (s : Py.str) c s' :
  Py.lstrip s = c :: s' → Py.isspace c = false.
Proof.
  induction s as [|d s IH]; simpl; [done|].
  destruct (Py.isspace d) eqn:E; [done|]. congruence.
Qed.

(** Stripping leaves nothing exactly when every character is whitespace. *)
Lemma strip_nil_iff (s : Py.str) :
  Py.strip s = [] ↔ Forall (λ c, Py.isspace c = true) s.
Proof.
  unfold Py.strip, Py.rstrip. split.
  - intros E. apply (f_equal reverse) in E.
    rewrite reverse_involutive in E. change (reverse []) with (@nil N) in E.
    apply lstrip_nil_iff in E. rewrite Forall_reverse in E.
    destruct (Py.lstrip s) as [|c s'] eqn:L; [by apply lstrip_nil_iff|].
    apply lstrip_head in L. apply Forall_cons_1 in E as [Hc _]. congruence.
  - intros F. apply lstrip_nil_iff in F. by rewrite F.
Qed.

Lemma not_strip_true (s : Py.str) :
  Py.not_ (Py.strip s) = true ↔ Forall (λ c, Py.isspace c = true) s.
Proof.
  rewrite <- strip_nil_iff. destruct (Py.strip s); simpl; split; done.
Qed.

Context {A : Type}.
Implicit Types a : list A.

(** [a[-k:]] keeps the last [k] items when [1 <= k <= len(a)]. *)
Lemma slice_last a (k : Z) :
  0 < k ≤ Z.of_nat (length a) →
  Py.slice_from (- k) a = drop (length a - Z.to_nat k) a.
Proof.
  intros Hk. unfold Py.slice_from.
  destruct (Z.ltb_spec (- k) 0); [|lia]. f_equal. lia.
Qed.

(** [a[-k:]] is the whole of [a] when [k] exceeds [len(a)]. *)
Lemma slice_beyond a (k : Z) :
  Z.of_nat (length a) < k → Py.slice_from (- k) a = a.
Proof.
  intros Hk. unfold Py.slice_from.
  destruct (Z.ltb_spec (- k) 0); [|lia].
  replace (Z.to_nat _) with 0%nat by lia. done.
Qed.

(** [a[-0:]] is [a[0:]], the whole of [a]. *)
Lemma slice_zero a : Py.slice_from (- 0) a = a.
Proof. unfold Py.slice_from. simpl. by replace (Z.to_nat _) with 0%nat by lia. Qed.

Lemma slice_whole a : Py.slice_from (- Z.of_nat (length a)) a = a.
Proof.
  unfold Py.slice_from.
  destruct (Z.ltb_spec (- Z.of_nat (length a)) 0);
    by replace (Z.to_nat _) with 0%nat by lia.
Qed.

Lemma slice_from_drop a (start : Z) : ∃ n, Py.slice_from start a = drop n a.
Proof. unfold Py.slice_from. eauto. Qed.

End py_facts.

(** ** Facts about sorted lists *)

Section sorted_facts.
Context {A : Type}.
Implicit Types (R : relation A) (l : list A).

Lemma StronglySorted_drop R n l : StronglySorted R l → StronglySorted R (drop n l).
Proof.
  intros S. rewrite <- (take_drop n l) in S.
  by apply StronglySorted_app_1_r in S.
Qed.

Lemma StronglySorted_snoc R l x :
  StronglySorted R l → Forall (λ y, R y x) l → StronglySorted R (l ++ [x]).
Proof.
  intros S F. apply StronglySorted_app_2; [|done|repeat constructor].
  intros y z Hy Hz. apply list_elem_of_singleton in Hz as ->.
  by eapply Forall_forall in F.
Qed.

Lemma StronglySorted_reverse R l :
  StronglySorted R l → StronglySorted (flip R) (reverse l).
Proof.
  induction 1 as [|x l S IH F]; [constructor|].
  rewrite reverse_cons. by apply StronglySorted_snoc; [|apply Forall_reverse].
Qed.

(** In a strongly sorted list an item to the left is related to every
    item to its right. *)
Lemma StronglySorted_lookup R l i j x y :
  StronglySorted R l → l !! i = Some x → l !! j = Some y → (i < j)%nat → R x y.
Proof.
  intros S. revert i j. induction S as [|z l S IH F]; intros i j Hi Hj Hij.
  - done.
  - destruct j as [|j]; [lia|]. destruct i as [|i]; simpl in *.
    + simplify_eq. eapply Forall_forall in F; [done|]. by eapply list_elem_of_lookup_2.
    + eapply IH; eauto. lia.
Qed.

Lemma StronglySorted_impl R R' l :
  (∀ x y, x ∈ l → y ∈ l → R x y → R' x y) →
  StronglySorted R l → StronglySorted R' l.
Proof.
  intros HR S. induction S as [|x l S IH F]; constructor.
  - apply IH. intros y z Hy Hz. apply HR; by right.
  - apply Forall_forall. intros y Hy. apply HR; [by left|by right|].
    by eapply Forall_forall in F.
Qed.

End sorted_facts.

(** ** Facts about the LRU cache *)

Section list_facts.
Context {A : Type} `{EqDecision A}.
Implicit Types (l : list A) (x : A).

Lemma last_n_all n l : (length l ≤ n)%nat → Functools.last_n n l = l.
Proof. intros Hn. unfold Functools.last_n. by replace (_ - _)%nat with 0%nat by lia. Qed.

Lemma last_n_app n l1 l2 :
  (n ≤ length l2)%nat → Functools.last_n n (l1 ++ l2) = Functools.last_n n l2.
Proof.
  intros Hn. unfold Functools.last_n. rewrite length_app.
  replace (length l1 + length l2 - n)%nat
    with (length l1 + (length l2 - n))%nat by lia.
  by rewrite drop_app_add.
Qed.

Lemma last_n_length n l : (length (Functools.last_n n l) ≤ n)%nat.
Proof. unfold Functools.last_n. rewrite length_drop. lia. Qed.

Lemma filter_ne_id x l : x ∉ l → filter (λ y, y ≠ x) l = l.
Proof.
  induction l as [|y l IH]; [done|]. rewrite not_elem_of_cons. intros [Hy Hl].
  rewrite filter_cons_True by done. by rewrite IH.
Qed.

Lemma filter_ne_length_lt x l :
  x ∈ l → (length (filter (λ y, y ≠ x) l) < length l)%nat.
Proof.
  induction l as [|y l IH]; [by rewrite elem_of_nil|].
  destruct (decide (y = x)) as [->|Hy].
  - intros _. rewrite filter_cons_False by naive_solver.
    pose proof (length_filter (λ y, y ≠ x) l). simpl. lia.
  - rewrite elem_of_cons. intros [?|Hx]; [done|].
    rewrite filter_cons_True by done. simpl. apply IH in Hx. lia.
Qed.

Lemma filter_ne_length x l :
  NoDup l → x ∈ l → S (length (filter (λ y, y ≠ x) l)) = length l.
Proof.
  induction 1 as [|y l Hy N IH]; [by rewrite elem_of_nil|].
  destruct (decide (y = x)) as [->|Hne].
  - intros _. rewrite filter_cons_False by naive_solver.
    by rewrite filter_ne_id.
  - rewrite elem_of_cons. intros [?|Hx]; [done|].
    rewrite filter_cons_True by done. simpl. by rewrite IH.
Qed.

(** Moving a key to the recent end commutes with keeping the last [n]. *)
Lemma last_n_touch n x l :
  NoDup l →
  Functools.last_n n (filter (λ y, y ≠ x) (Functools.last_n n l) ++ [x])
  = Functools.last_n n (filter (λ y, y ≠ x) l ++ [x]).
Proof.
  intros N. destruct (decide (length l ≤ n)%nat) as [Hl|Hl].
  { by rewrite (last_n_all n l). }
  assert (l = take (length l - n) l ++ Functools.last_n n l) as Hsplit
    by (unfold Functools.last_n; by rewrite take_drop).
  assert (length (Functools.last_n n l) = n) as Hd
    by (unfold Functools.last_n; rewrite length_drop; lia).
  set (B := Functools.last_n n l) in *. set (A' := take _ l) in *.
  rewrite Hsplit in N. rewrite Hsplit.
  rewrite filter_app, <- (assoc_L (++)).
  symmetry. apply last_n_app. rewrite length_app. simpl.
  destruct (decide (x ∈ B)) as [Hx|Hx].
  - apply NoDup_app in N as (_ & _ & N).
    pose proof (filter_ne_length x _ N Hx). lia.
  - rewrite filter_ne_id by done. lia.
Qed.

Lemma recency_snoc (h : list A) x :
  Functools.recency (h ++ [x]) = filter (λ y, y ≠ x) (Functools.recency h) ++ [x].
Proof. unfold Functools.recency. by rewrite foldl_app. Qed.

Lemma recency_NoDup (h : list A) : NoDup (Functools.recency h).
Proof.
  induction h as [|x h IH] using rev_ind; [constructor|].
  rewrite recency_snoc. apply NoDup_app. split_and!.
  - by apply NoDup_filter.
  - intros y [Hy _]%list_elem_of_filter ->%list_elem_of_singleton. done.
  - apply NoDup_singleton.
Qed.

End list_facts.

Section lru_facts.
Context {K V : Type} `{EqDecision K}.
Variable maxsize : nat.
Variable f : K → Py.result V.
Implicit Types (key : K) (v : V) (l : list (K * V)) (c : @Functools.cache K V)
  (h : list K).

Local Abbreviation wrapper := (Functools.wrapper maxsize f).
Local Abbreviation calls := (Functools.calls maxsize f).
Local Abbreviation coherent := (Functools.coherent f).

Lemma cache_get_None key l : Functools.cache_get key l = None ↔ key ∉ l.*1.
Proof.
  induction l as [|[k v] l IH]; simpl.
  - split; [intros _; apply not_elem_of_nil|done].
  - rewrite not_elem_of_cons. destruct (decide (k = key)) as [->|Hk].
    + split; [done|]. by intros [? _].
    + rewrite IH. split; [by split|by intros [_ ?]].
Qed.

Lemma cache_get_Some key l v : Functools.cache_get key l = Some v → (key, v) ∈ l.
Proof.
  induction l as [|[k w] l IH]; simpl; [done|].
  destruct (decide (k = key)) as [->|Hk].
  - intros [= ->]. by left.
  - intros Hl. right. by apply IH.
Qed.

Lemma cache_get_Some_key key l v :
  Functools.cache_get key l = Some v → key ∈ l.*1.
Proof. intros E%cache_get_Some. by apply (list_elem_of_fmap_2 fst) in E. Qed.

Lemma cache_get_elem_of key l : key ∈ l.*1 → is_Some (Functools.cache_get key l).
Proof.
  intros Hk. destruct (Functools.cache_get key l) eqn:E; [done|].
  by apply cache_get_None in E.
Qed.

Lemma extract_link_keys key l :
  (Functools.extract_link key l).*1 = filter (λ k, k ≠ key) l.*1.
Proof.
  unfold Functools.extract_link. induction l as [|[k v] l IH]; [done|].
  rewrite fmap_cons. simpl. destruct (decide (k = key)) as [->|Hk].
  - by rewrite !filter_cons_False by naive_solver.
  - rewrite !filter_cons_True by done. rewrite fmap_cons. simpl. by f_equal.
Qed.

(** A call returns what the function returns for the key, whether the
    result comes from the cache or not. *)
Lemma wrapper_result key c : coherent c → (wrapper key c).1 = f key.
Proof.
  intros Hc. unfold Functools.wrapper.
  destruct (Functools.cache_get key (Functools.links c)) as [v|] eqn:E.
  - apply cache_get_Some, Hc in E. by rewrite E.
  - by destruct (f key).
Qed.

Lemma wrapper_coherent key c : coherent c → coherent (wrapper key c).2.
Proof.
  intros Hc. unfold Functools.wrapper.
  destruct (Functools.cache_get key (Functools.links c)) as [v|] eqn:E.
  - intros k w. simpl. rewrite elem_of_app, list_elem_of_singleton.
    intros [Hk|[= -> ->]].
    + apply Hc. unfold Functools.extract_link in Hk.
      by apply list_elem_of_filter in Hk as [_ ?].
    + by apply Hc, cache_get_Some.
  - destruct (f key) as [v|e] eqn:Ef; [|done].
    intros k w. simpl. rewrite elem_of_app, list_elem_of_singleton.
    intros [Hk|[= -> ->]]; [|done]. apply Hc.
    destruct (decide _); [done|]. by eapply subseteq_drop.
Qed.

Lemma wrapper_misses key c :
  Functools.misses (wrapper key c).2
  = if decide (key ∈ Functools.keys c) then Functools.misses c
    else S (Functools.misses c).
Proof.
  unfold Functools.wrapper, Functools.keys.
  destruct (Functools.cache_get key (Functools.links c)) as [v|] eqn:E.
  - rewrite decide_True; [done|].
    by eapply cache_get_Some_key.
  - apply cache_get_None in E.
    destruct (decide (key ∈ _)); [done|]. by destruct (f key).
Qed.

Lemma wrapper_hits key c :
  Functools.hits (wrapper key c).2
  = if decide (key ∈ Functools.keys c) then S (Functools.hits c)
    else Functools.hits c.
Proof.
  unfold Functools.wrapper, Functools.keys.
  destruct (Functools.cache_get key (Functools.links c)) as [v|] eqn:E.
  - rewrite decide_True; [done|].
    by eapply cache_get_Some_key.
  - apply cache_get_None in E.
    destruct (decide (key ∈ _)); [done|]. by destruct (f key).
Qed.

Lemma succeeds_elem_of key c :
  coherent c → key ∈ Functools.keys c → Functools.succeeds f key = true.
Proof.
  intros Hc Hk. destruct (cache_get_elem_of _ _ Hk) as [v Hv].
  apply cache_get_Some, Hc in Hv. unfold Functools.succeeds. by rewrite Hv.
Qed.

(** The keys after a call: a key whose call succeeds moves to, or enters
    at, the recent end, and only the [maxsize] most recent are kept. *)
Lemma wrapper_keys key c :
  (0 < maxsize)%nat →
  coherent c →
  (length (Functools.keys c) ≤ maxsize)%nat →
  Functools.keys (wrapper key c).2
  = if Functools.succeeds f key
    then Functools.last_n maxsize
           (filter (λ k, k ≠ key) (Functools.keys c) ++ [key])
    else Functools.keys c.
Proof.
  intros Hpos Hc Hlen. unfold Functools.keys in *.
  destruct (Functools.cache_get key (Functools.links c)) as [v|] eqn:E.
  - assert (key ∈ (Functools.links c).*1) as Hk
      by (by eapply cache_get_Some_key).
    rewrite (succeeds_elem_of key c Hc Hk).
    unfold Functools.wrapper. rewrite E. simpl.
    rewrite fmap_app, extract_link_keys. simpl.
    rewrite last_n_all; [done|]. rewrite length_app. simpl.
    pose proof (filter_ne_length_lt key _ Hk). lia.
  - unfold Functools.wrapper, Functools.succeeds. rewrite E.
    apply cache_get_None in E. destruct (f key) as [v|e]; [|done]. simpl.
    rewrite (filter_ne_id key) by done. rewrite fmap_app. simpl.
    rewrite length_fmap in Hlen. destruct (decide _) as [Hfree|Hfull].
    + rewrite last_n_all; [done|]. rewrite length_app, length_fmap. simpl.
      destruct Hfree as [?| ->]; simpl; lia.
    + assert (Functools.links c ≠ []) as Hne by tauto.
      assert (¬ (length (Functools.links c) < maxsize)%nat) by tauto.
      unfold Functools.last_n. rewrite length_app, length_fmap. simpl.
      replace (_ - _)%nat with 1%nat by lia.
      destruct (Functools.links c); done.
Qed.

Lemma calls_snoc h key c :
  calls (h ++ [key]) c
  = ((calls h c).1 ++ [(wrapper key (calls h c).2).1],
     (wrapper key (calls h c).2).2).
Proof.
  revert c. induction h as [|k h IH]; intros c; simpl.
  - by destruct (wrapper key c).
  - destruct (wrapper k c) as [r c1]. rewrite IH.
    by destruct (calls h c1).
Qed.

Lemma calls_coherent h c : coherent c → coherent (calls h c).2.
Proof.
  intros Hc. induction h as [|key h IH] using rev_ind; [done|].
  rewrite calls_snoc. simpl. by apply wrapper_coherent.
Qed.

(** Every call of a history returns what the function returns. *)
Lemma calls_results h c : coherent c → (calls h c).1 = f <$> h.
Proof.
  intros Hc. induction h as [|key h IH] using rev_ind; [done|].
  rewrite calls_snoc, fmap_app. simpl.
  by rewrite IH, wrapper_result by by apply calls_coherent.
Qed.

Lemma empty_coherent : coherent Functools.empty.
Proof. intros k v. simpl. by rewrite elem_of_nil. Qed.

(** The cache holds the [maxsize] most recently used keys among those
    whose call succeeded, the least recently used one first. *)
Lemma calls_keys h :
  (0 < maxsize)%nat →
  Functools.keys (calls h Functools.empty).2
  = Functools.last_n maxsize
      (Functools.recency (filter (λ k, Functools.succeeds f k = true) h)).
Proof.
  intros Hpos. induction h as [|key h IH] using rev_ind; [done|].
  rewrite calls_snoc. simpl.
  rewrite wrapper_keys;
    [|done|by apply calls_coherent, empty_coherent
     |rewrite IH; apply last_n_length].
  rewrite filter_app, IH. destruct (Functools.succeeds f key) eqn:E.
  - rewrite (filter_cons_True _ key) by done.
    rewrite filter_nil, recency_snoc. apply last_n_touch, recency_NoDup.
  - rewrite (filter_cons_False _ key) by (by rewrite E).
    by rewrite filter_nil, app_nil_r.
Qed.

Lemma calls_keys_NoDup h :
  (0 < maxsize)%nat → NoDup (Functools.keys (calls h Functools.empty).2).
Proof.
  intros Hpos. rewrite calls_keys by done. unfold Functools.last_n.
  eapply sublist_NoDup; [apply recency_NoDup|apply sublist_drop].
Qed.

End lru_facts.

(** ** Facts about [argsort] *)

Section numpy_facts.
Context {score : Type} `{FloatOrder score}.
Implicit Types (a : list score) (x y z : score) (i j : nat).

Lemma slt_sle x y : Numpy.slt x y = true → sle x y = true.
Proof.
  unfold Numpy.slt. intros Hlt. destruct (sle_total x y) as [?|E]; [done|].
  by rewrite E in Hlt.
Qed.

Lemma slt_sle_trans x y z :
  Numpy.slt x y = true → sle y z = true → Numpy.slt x z = true.
Proof.
  unfold Numpy.slt. intros Hxy Hyz. destruct (sle z x) eqn:E; [|done].
  by rewrite (sle_trans _ _ _ Hyz E) in Hxy.
Qed.

Lemma not_slt_sle x y : Numpy.slt x y = false → sle y x = true.
Proof. unfold Numpy.slt. by destruct (sle y x). Qed.

Lemma stable_lt_le_at a i j : Numpy.stable_lt_at a i j → Numpy.le_at a i j.
Proof.
  unfold Numpy.stable_lt_at, Numpy.le_at.
  destruct (a !! i), (a !! j); try done. intros [?|[? _]]; [by apply slt_sle|done].
Qed.

Lemma insert_index_perm a i l : Numpy.insert_index a i l ≡ₚ i :: l.
Proof.
  induction l as [|j l IH]; simpl; [done|].
  destruct (a !! i) as [x|], (a !! j) as [y|];
    [destruct (Numpy.slt x y); [done|]|..];
    by rewrite IH, Permutation_swap.
Qed.

Lemma insert_index_sorted a i l :
  (i < length a)%nat →
  Forall (λ j, (j < i)%nat) l →
  StronglySorted (Numpy.stable_lt_at a) l →
  StronglySorted (Numpy.stable_lt_at a) (Numpy.insert_index a i l).
Proof.
  intros Hi Hl S. destruct (lookup_lt_is_Some_2 a i Hi) as [x Hx].
  induction S as [|j l S IH F]; simpl; [repeat constructor|].
  apply Forall_cons_1 in Hl as [Hj Hl]. rewrite Hx.
  destruct (lookup_lt_is_Some_2 a j) as [y Hy]; [lia|]. rewrite Hy.
  destruct (Numpy.slt x y) eqn:E.
  - constructor; [by constructor|]. constructor.
    { unfold Numpy.stable_lt_at. rewrite Hx, Hy. by left. }
    eapply Forall_impl; [exact F|]. intros l'. unfold Numpy.stable_lt_at.
    rewrite Hx, Hy. destruct (a !! l') as [z|]; [|done].
    intros [Hlt|[Hle _]]; left.
    + eapply slt_sle_trans; [done|by apply slt_sle].
    + by eapply slt_sle_trans.
  - constructor; [by apply IH|].
    rewrite insert_index_perm. constructor; [|done].
    unfold Numpy.stable_lt_at. rewrite Hx, Hy. right.
    split; [by apply not_slt_sle|done].
Qed.

(** The invariant of the insertion loop after the first [n] positions. *)
Lemma insertion_argsort_prefix a n :
  (n ≤ length a)%nat →
  let placed := foldl (λ acc i, Numpy.insert_index a i acc) [] (seq 0 n) in
  placed ≡ₚ seq 0 n ∧ StronglySorted (Numpy.stable_lt_at a) placed.
Proof.
  induction n as [|n IH]; intros Hn; cbv zeta.
  - split; [done|constructor].
  - destruct IH as [P S]; [lia|].
    rewrite seq_S, foldl_app. simpl. split.
    + by rewrite insert_index_perm, P, Permutation_cons_append.
    + apply insert_index_sorted; [lia| |done].
      rewrite P. apply Forall_seq. lia.
Qed.

Lemma insertion_argsort_perm a : Numpy.insertion_argsort a ≡ₚ seq 0 (length a).
Proof. by apply insertion_argsort_prefix. Qed.

Lemma insertion_argsort_sorted a :
  StronglySorted (Numpy.stable_lt_at a) (Numpy.insertion_argsort a).
Proof. by apply insertion_argsort_prefix. Qed.

Lemma insertion_argsort_stable : Numpy.stable_spec Numpy.insertion_argsort.
Proof. intros a. split; [apply insertion_argsort_perm|apply insertion_argsort_sorted]. Qed.

(** A stable argsort meets the contract of [np.argsort]. *)
Lemma stable_spec_argsort_spec (argsort : list score → list nat) :
  Numpy.stable_spec argsort → Numpy.argsort_spec argsort.
Proof.
  intros Hstable a. destruct (Hstable a) as [P S]. split; [done|].
  eapply StronglySorted_impl, S. intros i j _ _. apply stable_lt_le_at.
Qed.

Lemma insertion_argsort_spec : Numpy.argsort_spec Numpy.insertion_argsort.
Proof. apply stable_spec_argsort_spec, insertion_argsort_stable. Qed.

End numpy_facts.

(** ** Facts about the ranking *)

Section ranking_facts.
Context {score : Type} `{FloatOrder score}.
Variable argsort : list score → list nat.
Hypothesis argsort_ok : Numpy.argsort_spec argsort.
Implicit Types (sims : list score) (k : Z) (idxs : list nat).

Lemma argsort_length sims : length (argsort sims) = length sims.
Proof. destruct (argsort_ok sims) as [P _]. by rewrite P, length_seq. Qed.

Lemma argsort_bound sims i : i ∈ argsort sims → (i < length sims)%nat.
Proof.
  destruct (argsort_ok sims) as [P _]. rewrite P, elem_of_seq. lia.
Qed.

Lemma argsort_NoDup sims : NoDup (argsort sims).
Proof. destruct (argsort_ok sims) as [P _]. rewrite P. apply NoDup_seq. Qed.

Lemma top_k_sublist sims k : ∃ n, top_k_indices argsort sims k = reverse (drop n (argsort sims)).
Proof.
  unfold top_k_indices, Py.reversed.
  destruct (slice_from_drop (argsort sims) (- k)) as [n ->]. eauto.
Qed.

Lemma top_k_bound sims k :
  Forall (λ i, (i < length sims)%nat) (top_k_indices argsort sims k).
Proof.
  destruct (top_k_sublist sims k) as [n ->]. apply Forall_forall. intros i.
  rewrite elem_of_reverse. intros Hi. apply argsort_bound.
  by eapply subseteq_drop.
Qed.

Lemma top_k_NoDup sims k : NoDup (top_k_indices argsort sims k).
Proof.
  destruct (top_k_sublist sims k) as [n ->]. rewrite reverse_Permutation.
  pose proof (argsort_NoDup sims) as N. rewrite <- (take_drop n) in N.
  by apply NoDup_app in N as (_ & _ & ?).
Qed.

(** The indices come out by descending score. *)
Lemma top_k_sorted sims k :
  StronglySorted (Numpy.ge_at sims) (top_k_indices argsort sims k).
Proof.
  destruct (top_k_sublist sims k) as [n ->].
  apply (StronglySorted_reverse (Numpy.le_at sims)), StronglySorted_drop.
  apply argsort_ok.
Qed.

(** No row left out scores higher than a row that is shown. *)
Lemma top_k_highest sims k i j :
  i ∈ top_k_indices argsort sims k →
  (j < length sims)%nat →
  j ∉ top_k_indices argsort sims k →
  Numpy.ge_at sims i j.
Proof.
  destruct (top_k_sublist sims k) as [n ->]. rewrite !elem_of_reverse.
  intros Hi Hj Hnot. destruct (argsort_ok sims) as [P S].
  assert (j ∈ argsort sims) as Hin by (rewrite P, elem_of_seq; lia).
  rewrite <- (take_drop n (argsort sims)) in Hin, S.
  apply elem_of_app in Hin as [Hin|Hin]; [|done].
  exact (StronglySorted_app_1_elem_of _ _ _ _ _ S Hin Hi).
Qed.

Lemma top_k_length sims k :
  0 < k ≤ Z.of_nat (length sims) →
  length (top_k_indices argsort sims k) = Z.to_nat k.
Proof.
  intros Hk. unfold top_k_indices, Py.reversed.
  rewrite length_reverse, slice_last by (rewrite argsort_length; lia).
  rewrite length_drop, argsort_length. lia.
Qed.

Lemma top_k_beyond sims k :
  Z.of_nat (length sims) < k →
  top_k_indices argsort sims k = reverse (argsort sims).
Proof.
  intros Hk. unfold top_k_indices, Py.reversed.
  by rewrite slice_beyond; [|rewrite argsort_length].
Qed.

Lemma top_k_zero sims : top_k_indices argsort sims 0 = reverse (argsort sims).
Proof. unfold top_k_indices, Py.reversed. by rewrite slice_zero. Qed.

Lemma top_k_whole sims :
  top_k_indices argsort sims (Z.of_nat (length sims)) = reverse (argsort sims).
Proof.
  unfold top_k_indices, Py.reversed.
  by rewrite <- (argsort_length sims), slice_whole.
Qed.

Lemma reverse_argsort_perm sims : reverse (argsort sims) ≡ₚ seq 0 (length sims).
Proof. rewrite reverse_Permutation. apply argsort_ok. Qed.

End ranking_facts.

Section with_items_facts.
Context {A : Type}.
Implicit Types (a : list A) (idxs : list nat).

Lemma with_items_cons a i idxs x :
  a !! i = Some x → with_items a (i :: idxs) = (i, x) :: with_items a idxs.
Proof. unfold with_items. simpl. by intros ->. Qed.

Lemma with_items_fst a idxs :
  Forall (λ i, (i < length a)%nat) idxs → (with_items a idxs).*1 = idxs.
Proof.
  induction 1 as [|i idxs Hi _ IH]; [done|].
  destruct (lookup_lt_is_Some_2 a i Hi) as [x Hx].
  rewrite (with_items_cons _ _ _ _ Hx), fmap_cons. simpl. by f_equal.
Qed.

Lemma with_items_length a idxs :
  Forall (λ i, (i < length a)%nat) idxs → length (with_items a idxs) = length idxs.
Proof.
  intros F. apply with_items_fst in F. apply (f_equal length) in F.
  by rewrite length_fmap in F.
Qed.

Lemma with_items_lookup a idxs i x :
  (i, x) ∈ with_items a idxs → i ∈ idxs ∧ a !! i = Some x.
Proof.
  unfold with_items. rewrite list_elem_of_omap. intros (j & Hj & E).
  destruct (a !! j) as [y|] eqn:Hy; simplify_eq/=. done.
Qed.

Lemma with_items_sorted (R : relation A) (Ri : relation nat) a idxs :
  (∀ i j x y, a !! i = Some x → a !! j = Some y → Ri i j → R x y) →
  StronglySorted Ri idxs →
  StronglySorted (λ p q, R p.2 q.2) (with_items a idxs).
Proof.
  intros HR. induction 1 as [|i idxs S IH F]; [constructor|].
  unfold with_items. simpl. fold (with_items a idxs).
  destruct (a !! i) as [x|] eqn:Hx; simpl; [|done].
  constructor; [done|]. apply Forall_forall. intros [j y] Hj.
  apply with_items_lookup in Hj as [Hj Hy]. simpl.
  eapply HR; [done..|]. by eapply Forall_forall in F.
Qed.

End with_items_facts.

(** ** The search generator *)

Section search_facts.
Context {vector row record score : Type} `{FloatOrder score}.
Variable model_encode : Py.str → Py.result vector.
Variable similarity : vector → row → score.
Variable argsort : list score → list nat.
Variable published_date : record → option Py.str.
Implicit Types (g : @globals row record) (q : Py.str) (k : Z)
  (c : @Functools.cache Py.str vector).

Local Abbreviation search :=
  (search_generator model_encode similarity argsort published_date).
Local Abbreviation make_cards := (cards_for published_date).
Local Abbreviation dated := (all_dated published_date).

Lemma similarities_length v g :
  length (similarities similarity v g) = length (corpus_embeddings g).
Proof. unfold similarities. by rewrite length_fmap. Qed.

Lemma cosine_similarity_nonempty v g :
  corpus_embeddings g ≠ [] →
  cosine_similarity_0 similarity v g = Py.Ok (similarities similarity v g).
Proof. unfold cosine_similarity_0. by destruct (corpus_embeddings g). Qed.

Lemma all_dated_lookup g i r :
  dated g → df g !! i = Some r → is_Some (published_date r).
Proof.
  intros Hd Hr. eapply Forall_forall in Hd; [done|].
  by eapply list_elem_of_lookup_2.
Qed.

Lemma cards_for_ok g idxs :
  dated g →
  Forall (λ i, (i < length (df g))%nat) idxs →
  make_cards g idxs = Py.Ok (with_items (df g) idxs).
Proof.
  intros Hd. induction 1 as [|i idxs Hi _ IH]; [done|].
  destruct (lookup_lt_is_Some_2 (df g) i Hi) as [r Hr].
  destruct (all_dated_lookup g i r Hd Hr) as [d Hdate].
  rewrite (with_items_cons _ _ _ _ Hr). simpl. by rewrite Hr, Hdate, IH.
Qed.

Lemma cards_for_inv g idxs cards :
  make_cards g idxs = Py.Ok cards →
  cards = with_items (df g) idxs
  ∧ cards.*1 = idxs
  ∧ Forall (λ i, (i < length (df g))%nat) idxs.
Proof.
  revert cards. induction idxs as [|i idxs IH]; intros cards;
    cbn [cards_for].
  - intros [= <-]. by split_and!.
  - destruct (df g !! i) as [r|] eqn:Hr; [|done].
    destruct (published_date r); [|done].
    destruct (make_cards g idxs) as [cs|e]; [|done]. intros [= <-].
    destruct (IH cs eq_refl) as (-> & Hfst & Hall).
    rewrite (with_items_cons _ _ _ _ Hr), fmap_cons. simpl.
    split_and!; [done|by f_equal|].
    constructor; [by eapply lookup_lt_Some|done].
Qed.

(** The loop raises [IndexError] for an index out of range and
    [ValueError] for a record without a date, and nothing else. *)
Lemma cards_for_raise_inv g idxs e :
  make_cards g idxs = Py.Raise e →
  (e = Py.IndexError ∧ Exists (λ i, (length (df g) ≤ i)%nat) idxs)
  ∨ (e = Py.ValueError ∧ ¬ dated g).
Proof.
  induction idxs as [|i idxs IH]; simpl; [done|].
  destruct (df g !! i) as [r|] eqn:Hr.
  - destruct (published_date r) eqn:Hdate.
    + destruct (make_cards g idxs) as [cs|e']; [done|]. intros [= <-].
      destruct IH as [[-> ?]|?]; [done|left|by right]. split; [done|by right].
    + intros [= <-]. right. split; [done|]. intros Hd.
      destruct (all_dated_lookup g i r Hd Hr) as [d Hd']. congruence.
  - intros [= <-]. left. split; [done|]. left. by apply lookup_ge_None.
Qed.

(** An index beyond the data frame makes the loop raise. *)
Lemma cards_for_out_of_range g idxs :
  Exists (λ i, (length (df g) ≤ i)%nat) idxs →
  ∃ e, make_cards g idxs = Py.Raise e
       ∧ (e = Py.IndexError ∨ e = Py.ValueError)
       ∧ (dated g → e = Py.IndexError).
Proof.
  intros E. destruct (make_cards g idxs) as [cards|e] eqn:Hcards.
  - apply cards_for_inv in Hcards as (_ & _ & Hall). exfalso.
    apply Exists_exists in E as (i & Hi & Hge).
    eapply Forall_forall in Hall; [|done]. simpl in Hall. lia.
  - exists e. split; [done|].
    apply cards_for_raise_inv in Hcards as [[-> _]|[-> Hnot]];
      (split; [tauto|]); [done|by intros ?].
Qed.

Lemma search_blank g q k c :
  Py.strip q = [] → search g q k c = (Run [EmptyQuery] (Py.Ok ()), c).
Proof. unfold search_generator. by intros ->. Qed.

Lemma search_encode_raises g q k c e c' :
  Py.strip q ≠ [] →
  encode_query model_encode q c = (Py.Raise e, c') →
  search g q k c = (Run [Searching] (Py.Raise e), c').
Proof.
  unfold search_generator. intros Hq ->. by destruct (Py.strip q).
Qed.

(** Over a matrix without rows the similarity computation raises. *)
Lemma search_empty_corpus g q k c v c' :
  Py.strip q ≠ [] →
  encode_query model_encode q c = (Py.Ok v, c') →
  corpus_embeddings g = [] →
  search g q k c = (Run [Searching] (Py.Raise Py.ValueError), c').
Proof.
  intros Hq Henc Hg. unfold search_generator, cosine_similarity_0.
  rewrite Henc, Hg. by destruct (Py.strip q).
Qed.

(** For a query that is encoded, over a matrix with rows, the run is
    fixed by the selected indices. *)
Lemma search_encoded g q k c v c' :
  Py.strip q ≠ [] →
  encode_query model_encode q c = (Py.Ok v, c') →
  corpus_embeddings g ≠ [] →
  let top := top_k_indices argsort (similarities similarity v g) k in
  search g q k c
  = (if (length top =? 0)%nat then Run [Searching; NoResults] (Py.Ok ())
     else match make_cards g top with
          | Py.Raise e => Run [Searching] (Py.Raise e)
          | Py.Ok cards => Run [Searching; Results q cards (length top)] (Py.Ok ())
          end, c').
Proof.
  intros Hq Henc Hg top. unfold search_generator.
  rewrite Henc, (cosine_similarity_nonempty v g Hg).
  destruct (Py.strip q); [done|]. simpl. fold top.
  destruct (length top =? 0)%nat; [done|]. by destruct (make_cards g top).
Qed.

(** Selected indices come from a matrix that has rows. *)
Lemma top_k_nonempty_corpus v g k :
  Numpy.argsort_spec argsort →
  top_k_indices argsort (similarities similarity v g) k ≠ [] →
  corpus_embeddings g ≠ [].
Proof.
  intros Hsort Htop Hg. apply Htop.
  pose proof (top_k_bound argsort Hsort (similarities similarity v g) k) as B.
  rewrite similarities_length, Hg in B.
  destruct (top_k_indices argsort _ k) as [|i top]; [done|].
  apply Forall_cons_1 in B as [Hi _]. simpl in Hi. lia.
Qed.

(** With a record and a date for every row and some index selected, the
    generator yields the status and then one card per selected index. *)
Lemma search_shows g q k c v c' :
  Numpy.argsort_spec argsort →
  Py.strip q ≠ [] →
  encode_query model_encode q c = (Py.Ok v, c') →
  (length (corpus_embeddings g) ≤ length (df g))%nat →
  dated g →
  let top := top_k_indices argsort (similarities similarity v g) k in
  top ≠ [] →
  search g q k c
  = (Run [Searching; Results q (with_items (df g) top) (length top)] (Py.Ok ()), c').
Proof.
  intros Hsort Hq Henc Hlen Hd top Htop.
  rewrite (search_encoded g q k c v c' Hq Henc)
    by by eapply top_k_nonempty_corpus.
  fold top. destruct (Nat.eqb_spec (length top) 0) as [E|_].
  { by destruct top. }
  rewrite cards_for_ok; [done..|].
  eapply Forall_impl; [by apply top_k_bound|]. simpl.
  rewrite similarities_length. lia.
Qed.

(** Without any index selected, it yields the status and the message. *)
Lemma search_shows_nothing g q k c v c' :
  Py.strip q ≠ [] →
  encode_query model_encode q c = (Py.Ok v, c') →
  corpus_embeddings g ≠ [] →
  top_k_indices argsort (similarities similarity v g) k = [] →
  search g q k c = (Run [Searching; NoResults] (Py.Ok ()), c').
Proof.
  intros Hq Henc Hg Htop.
  rewrite (search_encoded g q k c v c' Hq Henc Hg). by rewrite Htop.
Qed.

(** What a run yields depends on the cached links only, not on the
    counters of the cache. *)
Lemma search_run_same_links g q k c1 c2 :
  Functools.links c1 = Functools.links c2 →
  (search g q k c1).1 = (search g q k c2).1.
Proof.
  intros E. unfold search_generator, encode_query, Functools.wrapper.
  rewrite E. destruct (Py.not_ (Py.strip q)); [done|].
  destruct (Functools.cache_get q (Functools.links c2)) as [v|].
  - destruct (cosine_similarity_0 similarity v g); [|done].
    destruct (length _ =? 0)%nat; [done|]. by destruct (make_cards _ _).
  - destruct (model_encode q) as [v|e]; [|done].
    destruct (cosine_similarity_0 similarity v g); [|done].
    destruct (length _ =? 0)%nat; [done|]. by destruct (make_cards _ _).
Qed.

(** A result update carries the selected indices with their records. *)
Lemma search_results_inv g q k c v c' q' cards n :
  encode_query model_encode q c = (Py.Ok v, c') →
  Results q' cards n ∈ yielded (search g q k c).1 →
  q' = q
  ∧ n = length cards
  ∧ cards.*1 = top_k_indices argsort (similarities similarity v g) k
  ∧ cards = with_items (df g) cards.*1
  ∧ corpus_embeddings g ≠ [].
Proof.
  intros Henc. unfold search_generator. rewrite Henc.
  destruct (Py.strip q); simpl.
  { intros Hin. by apply list_elem_of_singleton in Hin. }
  destruct (decide (corpus_embeddings g = [])) as [Hg|Hg].
  { unfold cosine_similarity_0. rewrite Hg. simpl.
    intros Hin. by apply list_elem_of_singleton in Hin. }
  rewrite (cosine_similarity_nonempty v g Hg).
  destruct (length _ =? 0)%nat; simpl.
  { intros Hin. apply elem_of_cons in Hin as [?|Hin]; [done|].
    by apply list_elem_of_singleton in Hin. }
  destruct (make_cards g _) as [cs|e] eqn:Hcards; simpl.
  - intros Hin. apply elem_of_cons in Hin as [?|Hin]; [done|].
    apply list_elem_of_singleton in Hin. injection Hin as -> -> ->.
    apply cards_for_inv in Hcards as (Hcs & Hfst & _).
    split_and!; [done| |done| |done].
    + by rewrite <- Hfst, length_fmap.
    + by rewrite Hfst.
  - intros Hin. by apply list_elem_of_singleton in Hin.
Qed.

(** The scores of the shown indices never increase. *)
Lemma ranked_descending sims k :
  Numpy.argsort_spec argsort →
  descending (ranked sims (top_k_indices argsort sims k)).
Proof.
  intros Hsort. unfold descending, ranked.
  apply (with_items_sorted (λ x y, sle y x = true) (Numpy.ge_at sims)).
  - intros i j x y Hx Hy. unfold Numpy.ge_at, Numpy.le_at. by rewrite Hx, Hy.
  - by apply top_k_sorted.
Qed.

Lemma ranked_indices sims k :
  Numpy.argsort_spec argsort →
  (ranked sims (top_k_indices argsort sims k)).*1 = top_k_indices argsort sims k.
Proof. intros Hsort. by apply with_items_fst, top_k_bound. Qed.

End search_facts.

(** ** Properties of the search *)

Section search_claims.
Context {vector row record score : Type} `{FloatOrder score}.
Variable model_encode : Py.str → Py.result vector.
Variable similarity : vector → row → score.
Variable argsort : list score → list nat.
Variable published_date : record → option Py.str.
Implicit Types (g : @globals row record) (q : Py.str) (k : Z)
  (c : @Functools.cache Py.str vector).

Local Abbreviation search :=
  (search_generator model_encode similarity argsort published_date).
Local Abbreviation dated := (all_dated published_date).

(** C1, as amended.  For a query that is not blank and whose encoding
    succeeds, over a corpus with as many records as embedding rows, and
    for a positive [k] not above the corpus size, the ranking selects
    exactly [k] (index, score) results, all different, with scores that
    never increase along them (equal scores may follow each other), and
    no row left out scores higher than a row selected.  When the date of
    every record can be formatted, the search shows exactly these [k]
    results, one card each. *)
Theorem search_returns_k_descending g q k c v c' :
  Numpy.argsort_spec argsort →
  Py.strip q ≠ [] →
  encode_query model_encode q c = (Py.Ok v, c') →
  length (df g) = length (corpus_embeddings g) →
  0 < k ≤ Z.of_nat (length (corpus_embeddings g)) →
  let sims := similarities similarity v g in
  let top := top_k_indices argsort sims k in
  length top = Z.to_nat k
  ∧ (ranked sims top).*1 = top
  ∧ length (ranked sims top) = Z.to_nat k
  ∧ NoDup top
  ∧ descending (ranked sims top)
  ∧ (∀ i j, i ∈ top → (j < length sims)%nat → j ∉ top → Numpy.ge_at sims i j)
  ∧ (dated g →
     search g q k c
     = (Run [Searching; Results q (with_items (df g) top) (Z.to_nat k)] (Py.Ok ()), c')
     ∧ length (with_items (df g) top) = Z.to_nat k).
Proof.
  intros Hsort Hq Henc Hlen Hk sims top.
  assert (length top = Z.to_nat k) as Htop
    by (apply top_k_length; [done|]; unfold sims; by rewrite similarities_length).
  assert (Forall (λ i, (i < length sims)%nat) top) as Hbound by by apply top_k_bound.
  assert (top ≠ []) as Hne
    by (intros E; rewrite E in Htop; simpl in Htop; lia).
  split_and!.
  - done.
  - by apply ranked_indices.
  - unfold ranked. by rewrite with_items_length.
  - by apply top_k_NoDup.
  - by apply ranked_descending.
  - intros i j. by apply top_k_highest.
  - intros Hd. split.
    + rewrite <- Htop. apply search_shows; [done..|lia|done|done].
    + rewrite with_items_length; [done|].
      unfold sims in Hbound. by rewrite similarities_length, <- Hlen in Hbound.
Qed.

(** C4.  A query made of whitespace only (the empty query included)
    makes the generator yield the idle message and nothing else, and
    leaves the encoder cache with its counters as it was: the encoder is
    not called and nothing is ranked, whatever the corpus and [k]. *)
Theorem search_blank_query_is_idle g q k c :
  Forall (λ ch, Py.isspace ch = true) q →
  search g q k c = (Run [EmptyQuery] (Py.Ok ()), c).
Proof. intros Hq. by apply search_blank, strip_nil_iff. Qed.


(** Where one item comes before another in a reversed list. *)
Lemma before_reverse i j (l : list nat) :
  before i j (reverse l) ↔ before j i l.
Proof.
  assert (∀ i j l, before i j l → before j i (reverse l)) as Hrev.
  { intros a b l' (pa & pb & Ha & Hb & Hlt).
    pose proof (lookup_lt_Some _ _ _ Ha). pose proof (lookup_lt_Some _ _ _ Hb).
    exists (length l' - S pb)%nat, (length l' - S pa)%nat.
    rewrite !reverse_lookup by lia.
    replace (length l' - S (length l' - S pb))%nat with pb by lia.
    replace (length l' - S (length l' - S pa))%nat with pa by lia.
    split_and!; [done..|lia]. }
  split; [|apply Hrev]. intros Hb. apply Hrev in Hb.
  by rewrite reverse_involutive in Hb.
Qed.

(** Dropping a front part keeps the order of the items that remain. *)
Lemma before_drop n i j (l : list nat) :
  NoDup l → i ∈ drop n l → j ∈ drop n l →
  before i j (drop n l) ↔ before i j l.
Proof.
  intros N Hi Hj. split.
  - intros (pi & pj & Hpi & Hpj & Hlt). rewrite lookup_drop in Hpi, Hpj.
    exists (n + pi)%nat, (n + pj)%nat. split_and!; [done..|lia].
  - intros (pi & pj & Hpi & Hpj & Hlt).
    apply list_elem_of_lookup in Hi as [pi' Hpi'].
    apply list_elem_of_lookup in Hj as [pj' Hpj'].
    rewrite lookup_drop in Hpi', Hpj'.
    assert (pi = n + pi')%nat as -> by (by eapply NoDup_lookup).
    assert (pj = n + pj')%nat as -> by (by eapply NoDup_lookup).
    exists pi', pj'. rewrite !lookup_drop. split_and!; [done..|lia].
Qed.

(** C2, as amended.  The search breaks no tie itself: whenever two rows
    that a result update shows have exactly equal scores, they are shown
    in the reverse of the order in which [np.argsort] lists them; the row
    with the lower index comes first exactly when the sort lists it
    after the other. *)
Theorem search_ties_reverse_argsort_order g q k c v c' q' cards n i j :
  Numpy.argsort_spec argsort →
  encode_query model_encode q c = (Py.Ok v, c') →
  Results q' cards n ∈ yielded (search g q k c).1 →
  let sims := similarities similarity v g in
  Numpy.tie_at sims i j →
  i ∈ cards.*1 →
  j ∈ cards.*1 →
  before i j cards.*1 ↔ before j i (argsort sims).
Proof.
  intros Hsort Henc Hin sims _.
  destruct (search_results_inv _ _ _ _ g q k c v c' q' cards n Henc Hin)
    as (_ & _ & -> & _).
  subst sims.
  destruct (top_k_sublist argsort (similarities similarity v g) k) as [m ->].
  rewrite !elem_of_reverse. intros Hi Hj.
  rewrite before_reverse. apply before_drop; [|done..].
  by apply argsort_NoDup.
Qed.

End search_claims.

(** ** Properties of the encoder and its cache *)

Section encoder_claims.
Context {vector : Type}.
Variable model_encode : Py.str → Py.result vector.
Implicit Types (q : Py.str) (history : list Py.str).

Lemma cache_after_coherent history :
  Functools.coherent model_encode (cache_after model_encode history).
Proof. apply calls_coherent, empty_coherent. Qed.

Lemma encode_query_result history q :
  (encode_query model_encode q (cache_after model_encode history)).1 = model_encode q.
Proof. apply wrapper_result, cache_after_coherent. Qed.

(** A query whose encoding raises is never in the cache. *)
Lemma failed_query_not_cached history q e :
  model_encode q = Py.Raise e →
  Functools.cache_get q (Functools.links (cache_after model_encode history)) = None.
Proof.
  intros He. destruct (Functools.cache_get _ _) as [v|] eqn:E; [|done].
  apply cache_get_Some, cache_after_coherent in E. congruence.
Qed.

(** C8.  The cache of [encode_query] keeps at most 128 queries, keyed by
    the query text, least recently used first.  Once it holds 128 of
    them, encoding one more query that is not cached drops the least
    recently used one and keeps the others; a later call with the
    dropped text misses and runs the model again, whereas a call with any
    text still cached leaves the miss counter alone. *)
Theorem encode_query_cache_evicts_lru history q v :
  let c := cache_after model_encode history in
  length (Functools.keys c) = 128%nat →
  q ∉ Functools.keys c →
  model_encode q = Py.Ok v →
  ∃ lru rest,
    Functools.keys c = lru :: rest
    ∧ Functools.keys c
      = Functools.last_n 128
          (Functools.recency
             (filter (λ k, Functools.succeeds model_encode k = true) history))
    ∧ let c' := (encode_query model_encode q c).2 in
      Functools.keys c' = rest ++ [q]
      ∧ length (Functools.keys c') = 128%nat
      ∧ (lru ∉ Functools.keys c')
      ∧ Functools.misses c' = S (Functools.misses c)
      ∧ Functools.misses (encode_query model_encode lru c').2
        = S (Functools.misses c')
      ∧ ∀ q', q' ∈ Functools.keys c' →
          Functools.misses (encode_query model_encode q' c').2
          = Functools.misses c'.
Proof.
  intros c Hfull Hq Hv.
  assert (Functools.coherent model_encode c) as Hc by apply cache_after_coherent.
  assert (NoDup (Functools.keys c)) as Hnd by (apply calls_keys_NoDup; lia).
  destruct (Functools.keys c) as [|lru rest] eqn:Hkeys; [done|].
  exists lru, rest. split; [done|]. split.
  { rewrite <- Hkeys. apply calls_keys. lia. }
  intros c'.
  assert (Functools.keys c' = rest ++ [q]) as Hkeys'.
  { unfold c', encode_query.
    rewrite wrapper_keys; [|lia|done|rewrite Hkeys; simpl in *; lia].
    unfold Functools.succeeds. rewrite Hv, Hkeys.
    rewrite (filter_ne_id q) by done.
    unfold Functools.last_n. rewrite length_app. simpl in *.
    by replace (_ - _)%nat with 1%nat by lia. }
  assert (lru ∉ Functools.keys c') as Hlru.
  { rewrite Hkeys', not_elem_of_app, list_elem_of_singleton.
    apply NoDup_cons in Hnd as [? _]. split; [done|].
    intros ->. apply Hq. by left. }
  split_and!; [done| |done| | |].
  - rewrite Hkeys', length_app. simpl in *. lia.
  - unfold c', encode_query. rewrite wrapper_misses.
    destruct (decide _) as [Hin|]; [|done]. by rewrite Hkeys in Hin.
  - unfold encode_query. rewrite wrapper_misses. by rewrite decide_False.
  - intros q' Hq'. unfold encode_query. rewrite wrapper_misses.
    by rewrite decide_True.
Qed.

End encoder_claims.

Section failure_claims.
Context {vector row record score : Type}.
Variable model_encode : Py.str → Py.result vector.
Variable similarity : vector → row → score.
Variable argsort : list score → list nat.
Variable published_date : record → option Py.str.

(** C9, as amended.  When the model raises while encoding a query that
    is not blank, the generator does not catch the exception: after the
    searching status it raises the same exception to its caller and
    yields nothing else.  The miss is counted and the cached queries are
    left as they were, so that any later request runs as it would have
    without the failed one. *)
Theorem search_encoding_failure_propagates
    (g : @globals row record) (q : Py.str) (k : Z) (history : list Py.str) e :
  Py.strip q ≠ [] →
  model_encode q = Py.Raise e →
  let search := search_generator model_encode similarity argsort published_date in
  let c := cache_after model_encode history in
  let failed := Functools.Cache (Functools.links c) (Functools.hits c)
                                (S (Functools.misses c)) in
  search g q k c = (Run [Searching] (Py.Raise e), failed)
  ∧ ∀ q' k', (search g q' k' failed).1 = (search g q' k' c).1.
Proof.
  intros Hq He search c failed. subst search c failed. split.
  - apply search_encode_raises; [done|].
    unfold encode_query, Functools.wrapper.
    rewrite (failed_query_not_cached model_encode history q e He).
    by rewrite He.
  - intros q' k'. by apply search_run_same_links.
Qed.

End failure_claims.

(** ** Properties of the start-up *)

Section startup_claims.
Context {row record : Type}.

(** C5, as amended.  Loading does not compare the number of records with
    the number of embedding rows: when both files exist and the model
    loads, the start-up completes and the process serves whatever the two
    counts are. *)
Theorem startup_serves_any_row_counts
    (records : list record) (embeddings : list row) :
  startup (Assets (Py.Ok records) (Py.Ok embeddings) (Py.Ok ()))
  = Serving (Globals records embeddings)
      [LoadingAssets; LoadingModel; AssetsLoaded; Launching].
Proof. reflexivity. Qed.

(** When a file is absent the start-up prints the error message and
    exits without serving. *)
Lemma startup_missing_file (fs : @assets row record) :
  app_data_csv fs = Py.Raise Py.FileNotFoundError
  ∨ (∃ data, app_data_csv fs = Py.Ok data)
    ∧ app_embeddings_npy fs = Py.Raise Py.FileNotFoundError →
  startup fs
  = Exited (Py.exit_status None) [LoadingAssets; ErrorCouldNotFind; ExceptionText].
Proof. unfold startup. by intros [-> | [[data ->] ->]]. Qed.

End startup_claims.


(** ** The properties at concrete inputs *)

(** C1 at the corpus [Demo.three]: the query "a" with [k = 2] shows rows 0
    and 2, whose scores are 3 and 2. *)
Lemma search_returns_k_descending_witness :
  Demo.search Demo.three Demo.query_a 2 Functools.empty
  = (Run [Searching; Results Demo.query_a [(0%nat, 100); (2%nat, 102)] 2] (Py.Ok ()),
     Functools.Cache [(Demo.query_a, 1)] 0 1)
  ∧ descending (ranked [3; 1; 2] [0%nat; 2%nat]).
Proof.
  destruct (search_returns_k_descending
              Demo.model_encode Demo.similarity Demo.argsort Demo.published_date
              Demo.three Demo.query_a 2 Functools.empty 1
              (Functools.Cache [(Demo.query_a, 1)] 0 1))
    as (_ & _ & _ & _ & Hdesc & _ & Hrun).
  - apply insertion_argsort_spec.
  - discriminate.
  - reflexivity.
  - reflexivity.
  - simpl. lia.
  - destruct Hrun as [Hrun _].
    + apply (bool_decide_unpack _). vm_compute. exact I.
    + split; [exact Hrun|exact Hdesc].
Defined.

(** C1 as stated fails on ties: over two rows with the same embedding the
    query "a" with [k = 2] shows both rows with the same score, so the
    scores do not strictly descend. *)
Lemma search_ties_are_not_strictly_descending :
  let sims := similarities Demo.similarity 1 Demo.twins in
  let top := top_k_indices Demo.argsort sims 2 in
  Demo.search Demo.twins Demo.query_a 2 Functools.empty
  = (Run [Searching; Results Demo.query_a [(1%nat, 101); (0%nat, 100)] 2] (Py.Ok ()),
     Functools.Cache [(Demo.query_a, 1)] 0 1)
  ∧ ranked sims top = [(1%nat, 1); (0%nat, 1)]
  ∧ ¬ strictly_descending (ranked sims top).
Proof.
  split_and!; [reflexivity..|].
  intros S. apply StronglySorted_inv in S as [_ F].
  apply Forall_cons_1 in F as [F _]. discriminate F.
Qed.

(** C2 at a corpus whose rows 0 and 2 tie: the sort lists row 0 before
    row 2, so row 0 is not shown before row 2. *)
Lemma search_ties_reverse_argsort_order_witness :
  before 0 2 [1%nat; 2%nat; 0%nat] ↔ before 2 0 (Demo.argsort [2; 5; 2]).
Proof.
  apply (search_ties_reverse_argsort_order
           Demo.model_encode Demo.similarity Demo.argsort Demo.published_date
           (Globals [100; 101; 102] [2; 5; 2]) Demo.query_a 3 Functools.empty 1
           (Functools.Cache [(Demo.query_a, 1)] 0 1)
           Demo.query_a [(1%nat, 101); (2%nat, 102); (0%nat, 100)] 3%nat
           0%nat 2%nat).
  - apply insertion_argsort_spec.
  - reflexivity.
  - vm_compute. right. left.
  - reflexivity.
  - vm_compute. do 2 right. left.
  - vm_compute. right. left.
Defined.

(** C2 as stated fails: rows 0 and 1 have exactly equal scores, the
    argsort meets the contract of [np.argsort], and the row with the lower
    index is shown second. *)
Lemma search_tie_shows_lower_row_second :
  let sims := similarities Demo.similarity 1 Demo.twins in
  let top := top_k_indices Demo.argsort sims 2 in
  Numpy.argsort_spec Demo.argsort
  ∧ Numpy.tie_at sims 0 1
  ∧ top = [1%nat; 0%nat]
  ∧ before 1 0 top
  ∧ ¬ before 0 1 top.
Proof.
  split_and!; [apply insertion_argsort_spec|reflexivity|reflexivity| |].
  - exists 0%nat, 1%nat. split_and!; [reflexivity..|lia].
  - intros (pi & pj & Hpi & Hpj & Hlt). vm_compute in Hpi, Hpj.
    destruct pi as [|[|pi]], pj as [|[|pj]]; simplify_eq; lia.
Qed.

(** C3 at the failing input: over a corpus without rows the query "a"
    with [k = 1] yields the searching status and then raises
    [ValueError]; the branch of the no-results message is not reached. *)
Theorem search_over_empty_corpus_raises :
  Demo.search (Globals [] []) Demo.query_a 1 Functools.empty
  = (Run [Searching] (Py.Raise Py.ValueError),
     Functools.Cache [(Demo.query_a, 1)] 0 1).
Proof. reflexivity. Qed.

(** C4 at the query of three blanks: the idle message, and a cache that
    stays empty with no miss counted. *)
Lemma search_blank_query_is_idle_witness :
  Demo.search Demo.three Demo.blanks 5 Functools.empty
  = (Run [EmptyQuery] (Py.Ok ()), Functools.Cache [] 0 0).
Proof.
  apply (search_blank_query_is_idle
           Demo.model_encode Demo.similarity Demo.argsort Demo.published_date
           Demo.three Demo.blanks 5 Functools.empty).
  repeat constructor.
Defined.

(** The empty query is idle as well. *)
Example search_empty_query_is_idle :
  Demo.search Demo.three [] 5 Functools.empty
  = (Run [EmptyQuery] (Py.Ok ()), Functools.Cache [] 0 0).
Proof. reflexivity. Qed.

(** C5 as stated fails: with one record and two embedding rows the
    start-up raises nothing and serves; the mismatch shows only later, when
    a search reaches the row without a record. *)
Lemma startup_accepts_misaligned_corpus :
  startup Demo.misaligned
  = Serving (Globals [100] [1; 2])
      [LoadingAssets; LoadingModel; AssetsLoaded; Launching]
  ∧ length [100] ≠ length [1; 2]
  ∧ Demo.search (Globals [100] [1; 2]) Demo.query_a 2 Functools.empty
    = (Run [Searching] (Py.Raise Py.IndexError),
       Functools.Cache [(Demo.query_a, 1)] 0 1).
Proof. split_and!; [reflexivity|discriminate|reflexivity]. Qed.

(** C6 at the failing inputs: with the records file absent, and with the
    embeddings file absent, the start-up prints the error message and the
    process exits with status 0. *)
Theorem startup_missing_asset_exits_with_status_zero :
  startup Demo.no_records
  = Exited 0 [LoadingAssets; ErrorCouldNotFind; ExceptionText]
  ∧ startup Demo.no_embeddings
    = Exited 0 [LoadingAssets; ErrorCouldNotFind; ExceptionText].
Proof. split; reflexivity. Qed.

(** C8 after the 128 distinct queries of [Demo.many]: one more query
    evicts the first of them. *)
Lemma encode_query_cache_evicts_lru_witness :
  ∃ lru rest,
    Functools.keys (cache_after Demo.model_encode Demo.many) = lru :: rest
    ∧ Functools.keys (cache_after Demo.model_encode Demo.many)
      = Functools.last_n 128
          (Functools.recency
             (filter (λ k, Functools.succeeds Demo.model_encode k = true) Demo.many))
    ∧ let c' := (encode_query Demo.model_encode Demo.one_more
                   (cache_after Demo.model_encode Demo.many)).2 in
      Functools.keys c' = rest ++ [Demo.one_more]
      ∧ length (Functools.keys c') = 128%nat
      ∧ (lru ∉ Functools.keys c')
      ∧ Functools.misses c'
        = S (Functools.misses (cache_after Demo.model_encode Demo.many))
      ∧ Functools.misses (encode_query Demo.model_encode lru c').2
        = S (Functools.misses c')
      ∧ ∀ q', q' ∈ Functools.keys c' →
          Functools.misses (encode_query Demo.model_encode q' c').2
          = Functools.misses c'.
Proof.
  apply (encode_query_cache_evicts_lru Demo.model_encode Demo.many Demo.one_more 1).
  - vm_compute. reflexivity.
  - apply (bool_decide_unpack _). vm_compute. exact I.
  - reflexivity.
Defined.

(** The evicted query of the run above is the first one, and asking for it
    again brings the miss counter from 129 to 130. *)
Example encode_query_after_eviction :
  let c' := (encode_query Demo.model_encode Demo.one_more
               (cache_after Demo.model_encode Demo.many)).2 in
  head (Functools.keys (cache_after Demo.model_encode Demo.many)) = Some [1000%N]
  ∧ Functools.misses c' = 129%nat
  ∧ Functools.misses (encode_query Demo.model_encode [1000%N] c').2 = 130%nat
  ∧ Functools.misses (encode_query Demo.model_encode [1001%N] c').2 = 129%nat.
Proof. vm_compute. done. Qed.

(** C9 at the query "!", on which the model runs out of memory. *)
Lemma search_encoding_failure_propagates_witness :
  Demo.search Demo.three Demo.query_bang 2 (cache_after Demo.model_encode [Demo.query_a])
  = (Run [Searching] (Py.Raise Py.MemoryError),
     Functools.Cache [(Demo.query_a, 1)] 0 2).
Proof.
  apply (search_encoding_failure_propagates
           Demo.model_encode Demo.similarity Demo.argsort Demo.published_date
           Demo.three Demo.query_bang 2 [Demo.query_a] Py.MemoryError).
  - discriminate.
  - reflexivity.
Defined.

(** C9 as stated fails: when the model raises, the run of the generator
    ends in that exception; it does not return, and it yields no error
    payload after the searching status. *)
Lemma search_does_not_capture_encoding_failure :
  Demo.model_encode Demo.query_bang = Py.Raise Py.MemoryError
  ∧ Demo.search Demo.three Demo.query_bang 2 Functools.empty
    = (Run [Searching] (Py.Raise Py.MemoryError), Functools.Cache [] 0 1)
  ∧ finished (Demo.search Demo.three Demo.query_bang 2 Functools.empty).1
    ≠ Py.Ok ().
Proof. split_and!; [reflexivity|reflexivity|discriminate]. Qed.


(** ** More about the ranking: every value of [k] *)

Section ranking_for_every_k.
Context {vector row record score : Type} `{FloatOrder score}.
Variable model_encode : Py.str → Py.result vector.
Variable similarity : vector → row → score.
Variable argsort : list score → list nat.
Implicit Types (g : @globals row record) (q : Py.str) (k : Z)
  (c : @Functools.cache Py.str vector) (sims : list score).

(** The number of indices that [[-k:]] keeps of [n]. *)
Lemma slice_from_neg_length {A : Type} (a : list A) k :
  length (Py.slice_from (- k) a)
  = Z.to_nat (if 0 <? k then Z.min k (Z.of_nat (length a))
              else Z.max (Z.of_nat (length a) + k) 0).
Proof.
  unfold Py.slice_from. rewrite length_drop.
  destruct (Z.ltb_spec 0 k), (Z.ltb_spec (- k) 0); lia.
Qed.

(** The shown indices are a prefix of the whole ranking, best first. *)
Lemma top_k_closed_form sims k :
  top_k_indices argsort sims k
  = take (length (Py.slice_from (- k) (argsort sims))) (reverse (argsort sims)).
Proof.
  unfold top_k_indices, Py.reversed, Py.slice_from.
  rewrite reverse_drop, length_drop. done.
Qed.

Lemma top_k_take sims k :
  Numpy.argsort_spec argsort →
  top_k_indices argsort sims k
  = take (Z.to_nat (if 0 <? k then k else Z.of_nat (length sims) + k))
         (reverse (argsort sims)).
Proof.
  intros Hsort. rewrite top_k_closed_form, slice_from_neg_length.
  rewrite (argsort_length argsort Hsort).
  destruct (Z.ltb_spec 0 k).
  - destruct (decide (k ≤ Z.of_nat (length sims))).
    + f_equal. lia.
    + rewrite !take_ge; [done|rewrite length_reverse, argsort_length by done; lia..].
  - f_equal. lia.
Qed.

Lemma ge_at_refl sims i : (i < length sims)%nat → Numpy.ge_at sims i i.
Proof.
  intros Hi. destruct (lookup_lt_is_Some_2 sims i Hi) as [x Hx].
  unfold Numpy.ge_at, Numpy.le_at. rewrite Hx.
  by destruct (sle_total x x).
Qed.

(** X1.  Asking for more results only adds lower ranked ones: for
    [0 < k <= k'] the indices shown for [k] are the first [k] of those
    shown for [k']. *)
Theorem top_k_is_prefix_of_larger_k sims k k' :
  Numpy.argsort_spec argsort →
  0 < k ≤ k' →
  top_k_indices argsort sims k
  = take (Z.to_nat k) (top_k_indices argsort sims k').
Proof.
  intros Hsort Hk. rewrite !top_k_take by done.
  destruct (Z.ltb_spec 0 k), (Z.ltb_spec 0 k'); try lia.
  rewrite take_take. f_equal. lia.
Qed.

(** X2.  A negative [k] is not rejected: the slice [[-k:]] then drops the
    [|k|] lowest ranked rows, so the search shows the best [N - |k|] rows
    of the [N], and none once [|k|] reaches [N]. *)
Theorem top_k_negative_drops_lowest sims k :
  Numpy.argsort_spec argsort →
  k < 0 →
  top_k_indices argsort sims k
  = take (length sims - Z.to_nat (- k)) (reverse (argsort sims))
  ∧ length (top_k_indices argsort sims k) = (length sims - Z.to_nat (- k))%nat.
Proof.
  intros Hsort Hk. rewrite top_k_take by done.
  destruct (Z.ltb_spec 0 k); [lia|].
  replace (Z.to_nat (Z.of_nat (length sims) + k))
    with (length sims - Z.to_nat (- k))%nat by lia.
  split; [done|].
  rewrite length_take, length_reverse, argsort_length by done. lia.
Qed.

(** X3.  Whatever [k] is, the first index shown is a best match: no row of
    the corpus has a higher score than the row shown first. *)
Theorem top_k_first_is_best sims k i rest j :
  Numpy.argsort_spec argsort →
  top_k_indices argsort sims k = i :: rest →
  (j < length sims)%nat →
  Numpy.ge_at sims i j.
Proof.
  intros Hsort Htop Hj.
  pose proof (top_k_sorted argsort Hsort sims k) as S.
  pose proof (top_k_bound argsort Hsort sims k) as B.
  rewrite Htop in S, B. apply Forall_cons_1 in B as [Hi _].
  destruct (decide (j ∈ top_k_indices argsort sims k)) as [Hin|Hout].
  - rewrite Htop in Hin. apply elem_of_cons in Hin as [->|Hin].
    + by apply ge_at_refl.
    + apply StronglySorted_inv in S as [_ F].
      by eapply Forall_forall in F.
  - apply (top_k_highest argsort Hsort sims k); [|done..].
    rewrite Htop. by left.
Qed.

End ranking_for_every_k.

(** ** More about the generator: every run *)

Section every_run.
Context {vector row record score : Type} `{FloatOrder score}.
Variable model_encode : Py.str → Py.result vector.
Variable similarity : vector → row → score.
Variable argsort : list score → list nat.
Variable published_date : record → option Py.str.
Implicit Types (g : @globals row record) (q : Py.str) (k : Z)
  (c : @Functools.cache Py.str vector) (sims : list score).

Local Abbreviation search :=
  (search_generator model_encode similarity argsort published_date).
Local Abbreviation dated := (all_dated published_date).

(** Only the model makes [encode_query] raise. *)
Lemma encode_query_raise_inv q c e c' :
  encode_query model_encode q c = (Py.Raise e, c') → model_encode q = Py.Raise e.
Proof.
  unfold encode_query, Functools.wrapper.
  destruct (Functools.cache_get q (Functools.links c)); [done|].
  destruct (model_encode q); [done|]. by intros [= <- _].
Qed.

(** X4.  Every run of the generator has one of four shapes: the idle
    message alone (exactly for a blank query); the searching status and
    then an exception; the searching status and the no-results message;
    or the searching status and one result update whose count is the
    number of its cards.  The exception is the one the model raised, a
    [ValueError] (of the similarity computation over a matrix without
    rows, or of a record whose date cannot be formatted) or the
    [IndexError] of the record lookup.  A run that raises has shown no
    results. *)
Theorem search_run_shapes g q k c :
  let r := (search g q k c).1 in
  (Py.strip q = [] ∧ r = Run [EmptyQuery] (Py.Ok ()))
  ∨ (Py.strip q ≠ []
     ∧ ((∃ e, r = Run [Searching] (Py.Raise e)
              ∧ (model_encode q = Py.Raise e
                 ∨ (e = Py.ValueError
                    ∧ (corpus_embeddings g = [] ∨ ¬ dated g))
                 ∨ e = Py.IndexError))
        ∨ r = Run [Searching; NoResults] (Py.Ok ())
        ∨ (∃ cards, cards ≠ []
                    ∧ r = Run [Searching; Results q cards (length cards)] (Py.Ok ())))).
Proof.
  destruct (Py.strip q) as [|ch s] eqn:Hq0.
  { left. split; [done|]. by rewrite search_blank. }
  right. split; [done|].
  assert (Py.strip q ≠ []) as Hq by (by rewrite Hq0).
  destruct (encode_query model_encode q c) as [[v|e] c'] eqn:Henc.
  - destruct (decide (corpus_embeddings g = [])) as [Hg|Hg].
    { left. exists Py.ValueError.
      rewrite (search_empty_corpus _ _ _ _ g q k c v c' Hq Henc Hg).
      split; [done|]. right. left. tauto. }
    rewrite (search_encoded _ _ _ _ g q k c v c' Hq Henc Hg). simpl.
    set (top := top_k_indices argsort (similarities similarity v g) k).
    destruct (Nat.eqb_spec (length top) 0) as [E|E]; [by right; left|].
    destruct (cards_for published_date g top) as [cards|e] eqn:Hcards.
    + right. right. exists cards.
      apply cards_for_inv in Hcards as (_ & Hfst & _).
      assert (length cards = length top) as Hlen
        by (by rewrite <- Hfst, length_fmap).
      rewrite Hlen. split; [|done]. intros ->. simpl in Hlen. lia.
    + left. exists e. split; [done|].
      apply cards_for_raise_inv in Hcards as [[-> _]|[-> ?]]; tauto.
  - left. exists e.
    rewrite (search_encode_raises _ _ _ _ g q k c e c' Hq Henc).
    split; [done|]. left. by eapply encode_query_raise_inv.
Qed.

(** X5.  Whenever a run yields results, they are for the query as typed,
    the count in the status is the number of cards, and the cards are the
    indices of [top_k_indices], in that order, each with the record at its
    own row of the data frame. *)
Theorem search_results_payload g q k c q' cards n :
  Results q' cards n ∈ yielded (search g q k c).1 →
  ∃ v, (encode_query model_encode q c).1 = Py.Ok v
       ∧ q' = q
       ∧ n = length cards
       ∧ cards.*1 = top_k_indices argsort (similarities similarity v g) k
       ∧ Forall (λ card, df g !! card.1 = Some card.2) cards.
Proof.
  intros Hin.
  destruct (encode_query model_encode q c) as [[v|e] c'] eqn:Henc.
  - destruct (search_results_inv _ _ _ _ g q k c v c' q' cards n Henc Hin)
      as (-> & -> & Hfst & Hcards & _).
    exists v. split_and!; [done..|].
    rewrite Hcards. apply Forall_forall. intros [i r] Hir.
    by apply with_items_lookup in Hir as [_ ?].
  - exfalso. revert Hin. unfold search_generator. rewrite Henc.
    destruct (Py.strip q); simpl; intros Hin;
      by apply list_elem_of_singleton in Hin.
Qed.

End every_run.

Section every_successful_encoding.
Context {vector row record score : Type} `{FloatOrder score}.
Variable model_encode : Py.str → Py.result vector.
Variable similarity : vector → row → score.
Variable argsort : list score → list nat.
Variable published_date : record → option Py.str.
Implicit Types (g : @globals row record) (q : Py.str) (k : Z)
  (c : @Functools.cache Py.str vector) (sims : list score).

Local Abbreviation search :=
  (search_generator model_encode similarity argsort published_date).
Local Abbreviation dated := (all_dated published_date).

Lemma top_k_length_any sims k :
  Numpy.argsort_spec argsort →
  length (top_k_indices argsort sims k)
  = Z.to_nat (if 0 <? k then Z.min k (Z.of_nat (length sims))
              else Z.max (Z.of_nat (length sims) + k) 0).
Proof.
  intros Hsort. unfold top_k_indices, Py.reversed.
  by rewrite length_reverse, slice_from_neg_length, argsort_length.
Qed.

(** X6.  For a query that is not blank and is encoded, the no-results
    message is the outcome exactly when the corpus has rows and [k] is at
    most [-N]: a positive [k] never gives it, and neither does a corpus
    without rows. *)
Theorem search_no_results_iff g q k c v c' :
  Numpy.argsort_spec argsort →
  Py.strip q ≠ [] →
  encode_query model_encode q c = (Py.Ok v, c') →
  let N := Z.of_nat (length (corpus_embeddings g)) in
  (search g q k c).1 = Run [Searching; NoResults] (Py.Ok ())
  ↔ 0 < N ∧ k ≤ - N.
Proof.
  intros Hsort Hq Henc N.
  destruct (decide (corpus_embeddings g = [])) as [Hg|Hg].
  { rewrite (search_empty_corpus _ _ _ _ g q k c v c' Hq Henc Hg).
    subst N. rewrite Hg. simpl. split; [done|lia]. }
  assert (0 < N) as HN
    by (subst N; destruct (corpus_embeddings g); [done|simpl; lia]).
  rewrite (search_encoded _ _ _ _ g q k c v c' Hq Henc Hg). simpl.
  pose proof (top_k_length_any (similarities similarity v g) k Hsort) as Hlen.
  rewrite similarities_length in Hlen. fold N in Hlen.
  destruct (Nat.eqb_spec
              (length (top_k_indices argsort (similarities similarity v g) k)) 0)
    as [E|E].
  - split; [intros _|done]. rewrite E in Hlen.
    destruct (Z.ltb_spec 0 k); lia.
  - split.
    + by destruct (cards_for published_date g _).
    + intros [_ Hk]. exfalso. apply E. rewrite Hlen.
      destruct (Z.ltb_spec 0 k); lia.
Qed.

(** X7.  Whatever [k] is, a result update never shows a row twice, never
    shows an index outside the embedding matrix, never shows more cards
    than the corpus has rows, and lists the rows by scores that never
    increase. *)
Theorem search_results_are_ranked g q k c v c' q' cards n :
  Numpy.argsort_spec argsort →
  encode_query model_encode q c = (Py.Ok v, c') →
  Results q' cards n ∈ yielded (search g q k c).1 →
  let sims := similarities similarity v g in
  NoDup cards.*1
  ∧ Forall (λ i, (i < length (corpus_embeddings g))%nat) cards.*1
  ∧ (n ≤ length (corpus_embeddings g))%nat
  ∧ descending (ranked sims cards.*1).
Proof.
  intros Hsort Henc Hin sims.
  destruct (search_results_inv _ _ _ _ g q k c v c' q' cards n Henc Hin)
    as (_ & -> & Htop & _).
  rewrite <- (length_fmap fst cards), Htop. fold sims. split_and!.
  - by apply top_k_NoDup.
  - rewrite <- (similarities_length similarity v g). by apply top_k_bound.
  - rewrite top_k_length_any by done. unfold sims.
    rewrite similarities_length. destruct (Z.ltb_spec 0 k); lia.
  - by apply ranked_descending.
Qed.

(** X8.  With fewer records than embedding rows, a search that ranks the
    whole corpus ([k = 0] or [k] at least the number of rows) yields the
    searching status and then raises; it shows no results.  The exception
    is the [IndexError] of the record lookup, unless a record ranked
    before the missing one has no date, which raises [ValueError]
    first. *)
Theorem search_short_data_frame_raises g q k c v c' :
  Numpy.argsort_spec argsort →
  Py.strip q ≠ [] →
  encode_query model_encode q c = (Py.Ok v, c') →
  (length (df g) < length (corpus_embeddings g))%nat →
  k = 0 ∨ Z.of_nat (length (corpus_embeddings g)) ≤ k →
  ∃ e, search g q k c = (Run [Searching] (Py.Raise e), c')
       ∧ (e = Py.IndexError ∨ e = Py.ValueError)
       ∧ (dated g → e = Py.IndexError).
Proof.
  intros Hsort Hq Henc Hshort Hk.
  assert (corpus_embeddings g ≠ []) as Hg
    by (intros E; rewrite E in Hshort; simpl in Hshort; lia).
  rewrite (search_encoded _ _ _ _ g q k c v c' Hq Henc Hg).
  set (sims := similarities similarity v g).
  assert (length sims = length (corpus_embeddings g)) as Hsims
    by apply similarities_length.
  assert (top_k_indices argsort sims k = reverse (argsort sims)) as Hall.
  { destruct Hk as [->|Hk]; [by apply top_k_zero|].
    destruct (decide (k = Z.of_nat (length sims))) as [->|Hne].
    - by apply top_k_whole.
    - apply top_k_beyond; [done|lia]. }
  assert (length (df g) ∈ top_k_indices argsort sims k) as Hin.
  { rewrite Hall, (reverse_argsort_perm argsort Hsort), elem_of_seq. lia. }
  destruct (Nat.eqb_spec (length (top_k_indices argsort sims k)) 0) as [E|_].
  { destruct (top_k_indices argsort sims k); [|done]. by apply elem_of_nil in Hin. }
  destruct (cards_for_out_of_range published_date g (top_k_indices argsort sims k))
    as (e & -> & He & Hd).
  { apply Exists_exists. by exists (length (df g)). }
  by exists e.
Qed.

(** X9.  The record lookup needs no more than a record for every
    embedding row: with at least as many records as rows no search of an
    encoded query raises [IndexError], whatever [k] is, and records beyond
    the last embedding row are never selected.  When moreover the corpus
    has rows and the date of every record can be formatted, the search
    does not raise at all. *)
Theorem search_long_data_frame_no_index_error g q k c v c' :
  Numpy.argsort_spec argsort →
  Py.strip q ≠ [] →
  encode_query model_encode q c = (Py.Ok v, c') →
  (length (corpus_embeddings g) ≤ length (df g))%nat →
  let top := top_k_indices argsort (similarities similarity v g) k in
  finished (search g q k c).1 ≠ Py.Raise Py.IndexError
  ∧ Forall (λ i, (i < length (corpus_embeddings g))%nat) top
  ∧ (corpus_embeddings g ≠ [] → dated g →
     search g q k c
     = (Run [Searching;
             if decide (top = []) then NoResults
             else Results q (with_items (df g) top) (length top)] (Py.Ok ()), c')).
Proof.
  intros Hsort Hq Henc Hlong top.
  assert (Forall (λ i, (i < length (corpus_embeddings g))%nat) top) as Hbound.
  { rewrite <- (similarities_length similarity v g). by apply top_k_bound. }
  assert (Forall (λ i, (i < length (df g))%nat) top) as Hbound'.
  { eapply Forall_impl; [exact Hbound|]. simpl. lia. }
  split_and!; [|done|].
  - destruct (decide (corpus_embeddings g = [])) as [Hg|Hg].
    { by rewrite (search_empty_corpus _ _ _ _ g q k c v c' Hq Henc Hg). }
    rewrite (search_encoded _ _ _ _ g q k c v c' Hq Henc Hg). fold top. simpl.
    destruct (length top =? 0)%nat; [done|].
    destruct (cards_for published_date g top) as [cards|e] eqn:Hcards; [done|].
    simpl. apply cards_for_raise_inv in Hcards as [[_ Hex]|[-> _]]; [|done].
    exfalso. apply Exists_exists in Hex as (i & Hi & Hge).
    eapply Forall_forall in Hbound'; [|done]. simpl in Hbound'. lia.
  - intros Hg Hd.
    rewrite (search_encoded _ _ _ _ g q k c v c' Hq Henc Hg). fold top.
    destruct (decide (top = [])) as [->|Hne]; [done|].
    destruct (Nat.eqb_spec (length top) 0) as [E|_]; [by destruct top|].
    by rewrite cards_for_ok.
Qed.

(** X18.  For a query that is not blank and whose encoding succeeds, over
    a corpus of [N >= 1] records and [N] embedding rows, a [k] above [N]
    selects every corpus index, by scores that never increase, and the run
    is the one for [k = N].  When the date of every record can be
    formatted, the search shows all [N] rows. *)
Theorem search_k_beyond_corpus_ranks_all g q k c v c' :
  Numpy.argsort_spec argsort →
  Py.strip q ≠ [] →
  encode_query model_encode q c = (Py.Ok v, c') →
  length (df g) = length (corpus_embeddings g) →
  (0 < length (corpus_embeddings g))%nat →
  Z.of_nat (length (corpus_embeddings g)) < k →
  let N := length (corpus_embeddings g) in
  let sims := similarities similarity v g in
  let top := top_k_indices argsort sims k in
  search g q k c = search g q (Z.of_nat N) c
  ∧ top ≡ₚ seq 0 N
  ∧ (ranked sims top).*1 = top
  ∧ descending (ranked sims top)
  ∧ (dated g →
     search g q k c
     = (Run [Searching; Results q (with_items (df g) top) N] (Py.Ok ()), c')
     ∧ length (with_items (df g) top) = N).
Proof.
  intros Hsort Hq Henc Hlen Hpos Hk N sims top.
  assert (length sims = N) as Hsims by apply similarities_length.
  assert (top = reverse (argsort sims)) as Hall
    by (apply top_k_beyond; [done|]; by rewrite Hsims).
  assert (top ≡ₚ seq 0 N) as Hperm
    by (rewrite Hall, <- Hsims; by apply reverse_argsort_perm).
  assert (length top = N) as Htop by by rewrite Hperm, length_seq.
  assert (top ≠ []) as Hne
    by (intros E; rewrite E in Htop; simpl in Htop; unfold N in Htop; lia).
  assert (corpus_embeddings g ≠ []) as Hg
    by (intros E; rewrite E in Hpos; simpl in Hpos; lia).
  split_and!.
  - rewrite !(search_encoded _ _ _ _ g q _ c v c' Hq Henc Hg). fold sims top.
    by rewrite <- Hsims, top_k_whole, <- Hall.
  - done.
  - by apply ranked_indices.
  - by apply ranked_descending.
  - intros Hd. split.
    + rewrite <- Htop. apply search_shows; [done..|lia|done|done].
    + rewrite with_items_length; [done|]. rewrite Hperm, Hlen.
      apply Forall_seq. fold N. lia.
Qed.

(** X19.  Over a corpus without embedding rows every search of a query
    that is not blank and is encoded yields the searching status and then
    raises [ValueError], whatever [k] is: the branch of the no-results
    message is never reached there. *)
Theorem search_empty_corpus_always_raises g q k c v c' :
  Py.strip q ≠ [] →
  encode_query model_encode q c = (Py.Ok v, c') →
  corpus_embeddings g = [] →
  search g q k c = (Run [Searching] (Py.Raise Py.ValueError), c')
  ∧ (NoResults ∉ yielded (search g q k c).1).
Proof.
  intros Hq Henc Hg.
  rewrite (search_empty_corpus _ _ _ _ g q k c v c' Hq Henc Hg). simpl.
  split; [done|]. intros Hin. by apply list_elem_of_singleton in Hin.
Qed.

End every_successful_encoding.

(** ** More about the cache of the encoder *)

Section recency_facts.
Context {A : Type} `{EqDecision A}.
Implicit Types (l h : list A) (x : A).

Lemma filter_Forall_id (P : A → Prop) `{!∀ x, Decision (P x)} l :
  Forall P l → filter P l = l.
Proof.
  induction 1 as [|x l Hx _ IH]; [done|].
  rewrite filter_cons_True by done. by rewrite IH.
Qed.

Lemma recency_elem_of h x : x ∈ Functools.recency h ↔ x ∈ h.
Proof.
  induction h as [|y h IH] using rev_ind; [done|].
  rewrite recency_snoc, !elem_of_app, list_elem_of_filter, IH, !list_elem_of_singleton.
  destruct (decide (x = y)); tauto.
Qed.

(** The order of last use of a history in two parts. *)
Lemma recency_app h1 h2 :
  Functools.recency (h1 ++ h2)
  = filter (λ x, x ∉ h2) (Functools.recency h1) ++ Functools.recency h2.
Proof.
  induction h2 as [|x h2 IH] using rev_ind.
  - change (Functools.recency []) with (@nil A).
    rewrite !app_nil_r, filter_Forall_id; [done|].
    apply Forall_forall. intros y _. apply not_elem_of_nil.
  - rewrite (assoc_L (++)), !recency_snoc, IH, filter_app, list_filter_filter.
    rewrite <- (assoc_L (++)). f_equal. apply list_filter_iff. intros y.
    rewrite elem_of_app, list_elem_of_singleton. tauto.
Qed.

Lemma recency_cons_fresh x h :
  x ∉ h → Functools.recency (x :: h) = x :: Functools.recency h.
Proof.
  intros Hx. change (x :: h) with ([x] ++ h). rewrite recency_app.
  change (Functools.recency [x]) with [x].
  by rewrite filter_cons_True, filter_nil by done.
Qed.

(** An item is among the last [n] exactly when fewer than [n] follow it. *)
Lemma elem_of_last_n n l1 x l2 :
  NoDup (l1 ++ x :: l2) →
  x ∈ Functools.last_n n (l1 ++ x :: l2) ↔ (length l2 < n)%nat.
Proof.
  intros N. unfold Functools.last_n. rewrite length_app. simpl. split.
  - intros Hin. destruct (decide (length l2 < n)%nat) as [|Hge]; [done|].
    exfalso. rewrite drop_app_ge in Hin by lia.
    replace (length l1 + S (length l2) - n - length l1)%nat
      with (S (length l2 - n)) in Hin by lia.
    simpl in Hin. apply subseteq_drop in Hin.
    apply NoDup_app in N as (_ & _ & N). by apply NoDup_cons in N as [? _].
  - intros Hlt. rewrite drop_app_le by lia. apply elem_of_app. right. by left.
Qed.

End recency_facts.

Section encoder_cache_more.
Context {vector : Type}.
Variable model_encode : Py.str → Py.result vector.
Implicit Types (q : Py.str) (history : list Py.str)
  (c : @Functools.cache Py.str vector).

Lemma cache_get_snoc_fresh q (l : list (Py.str * vector)) v :
  q ∉ l.*1 → Functools.cache_get q (l ++ [(q, v)]) = Some v.
Proof.
  induction l as [|[k w] l IH]; simpl.
  - intros _. by rewrite decide_True.
  - rewrite not_elem_of_cons. intros [Hk Hl]. simpl in Hk.
    rewrite decide_False by done. by apply IH.
Qed.

(** After a call that returned a vector, the query is cached with it. *)
Lemma encode_query_then_cached q c v c' :
  encode_query model_encode q c = (Py.Ok v, c') →
  Functools.cache_get q (Functools.links c') = Some v.
Proof.
  unfold encode_query, Functools.wrapper.
  destruct (Functools.cache_get q (Functools.links c)) as [w|] eqn:E.
  - intros [= <- <-]. simpl. apply cache_get_snoc_fresh.
    rewrite (extract_link_keys model_encode), list_elem_of_filter. tauto.
  - destruct (model_encode q) as [w|e]; [|done]. intros [= <- <-]. simpl.
    apply cache_get_snoc_fresh. apply cache_get_None in E.
    destruct (decide _); [done|]. intros Hin. apply E.
    revert Hin. rewrite fmap_drop. apply subseteq_drop.
Qed.

Lemma calls_app history1 history2 c :
  (Functools.calls 128 model_encode (history1 ++ history2) c).2
  = (Functools.calls 128 model_encode history2
       (Functools.calls 128 model_encode history1 c).2).2.
Proof.
  induction history2 as [|q h IH] using rev_ind.
  - by rewrite app_nil_r.
  - by rewrite (assoc_L (++)), !calls_snoc, IH.
Qed.

Lemma cache_after_snoc history q :
  cache_after model_encode (history ++ [q])
  = (encode_query model_encode q (cache_after model_encode history)).2.
Proof. unfold cache_after, encode_queries. by rewrite calls_snoc. Qed.

(** X11.  In every state the process can reach, the cache holds at most
    128 queries and holds no query twice. *)
Theorem encode_query_cache_bounded history :
  (length (Functools.keys (cache_after model_encode history)) ≤ 128)%nat
  ∧ NoDup (Functools.keys (cache_after model_encode history)).
Proof.
  split.
  - unfold cache_after, encode_queries. rewrite calls_keys by lia.
    apply last_n_length.
  - apply calls_keys_NoDup. lia.
Qed.

(** X12.  The two counters of the cache account for every call: after any
    history of calls, hits plus misses is the number of calls made. *)
Theorem encode_query_counters_count_calls history :
  (Functools.hits (cache_after model_encode history)
   + Functools.misses (cache_after model_encode history))%nat
  = length history.
Proof.
  induction history as [|q h IH] using rev_ind; [done|].
  rewrite cache_after_snoc, length_app. simpl. unfold encode_query.
  rewrite wrapper_hits, wrapper_misses. destruct (decide _); lia.
Qed.

(** X13.  A query that was encoded is still cached exactly when fewer than
    128 distinct other queries have been encoded since its last use;
    calls that raised in between do not count. *)
Theorem encode_query_retention before_ q since v :
  model_encode q = Py.Ok v →
  q ∉ since →
  q ∈ Functools.keys (cache_after model_encode (before_ ++ q :: since))
  ↔ (length (Functools.recency
               (filter (λ k, Functools.succeeds model_encode k = true) since))
     < 128)%nat.
Proof.
  intros Hv Hq. unfold cache_after, encode_queries. rewrite calls_keys by lia.
  rewrite filter_app, filter_cons_True
    by (unfold Functools.succeeds; by rewrite Hv).
  set (B := filter _ since).
  assert (q ∉ B) as HqB.
  { unfold B. rewrite list_elem_of_filter. tauto. }
  pose proof (recency_NoDup (filter (λ k, Functools.succeeds model_encode k = true)
                               before_ ++ q :: B)) as N.
  rewrite recency_app, recency_cons_fresh in N |- * by done.
  by apply elem_of_last_n.
Qed.

(** X14.  A failure is not cached: when the model raises on a query,
    every further call with that query runs the model again, so [n] calls
    add [n] misses, no hit, and leave the cached queries as they were. *)
Theorem encode_query_failures_not_cached history q e n :
  model_encode q = Py.Raise e →
  let c := cache_after model_encode history in
  let c' := cache_after model_encode (history ++ replicate n q) in
  Functools.misses c' = (Functools.misses c + n)%nat
  ∧ Functools.hits c' = Functools.hits c
  ∧ Functools.links c' = Functools.links c.
Proof.
  intros He c c'. subst c c'. induction n as [|n IH].
  - by rewrite app_nil_r.
  - rewrite replicate_S_end, (assoc_L (++)), cache_after_snoc.
    destruct IH as (Hm & Hh & Hl).
    unfold encode_query, Functools.wrapper.
    rewrite (failed_query_not_cached model_encode _ q e He), He. simpl.
    split_and!; [lia|done..].
Qed.

End encoder_cache_more.

Section search_and_cache.
Context {vector row record score : Type}.
Variable model_encode : Py.str → Py.result vector.
Variable similarity : vector → row → score.
Variable argsort : list score → list nat.
Variable published_date : record → option Py.str.
Implicit Types (g : @globals row record) (q : Py.str) (k : Z)
  (c : @Functools.cache Py.str vector).

Local Abbreviation search :=
  (search_generator model_encode similarity argsort published_date).

(** X10.  A search leaves the cache as its one call of [encode_query]
    does, and once a query has been encoded, searching for the same text
    again, with any [k], is served from the cache: the miss counter stays,
    the hit counter goes up by one, and with the same [k] the run is the
    same. *)
Theorem search_again_is_served_from_cache g q k k' c v c1 :
  Py.strip q ≠ [] →
  encode_query model_encode q c = (Py.Ok v, c1) →
  (search g q k c).2 = c1
  ∧ Functools.misses (search g q k' c1).2 = Functools.misses c1
  ∧ Functools.hits (search g q k' c1).2 = S (Functools.hits c1)
  ∧ (search g q k c1).1 = (search g q k c).1.
Proof.
  intros Hq Henc.
  pose proof (encode_query_then_cached model_encode q c v c1 Henc) as Hhit.
  assert (∃ c2, encode_query model_encode q c1 = (Py.Ok v, c2)
                ∧ Functools.misses c2 = Functools.misses c1
                ∧ Functools.hits c2 = S (Functools.hits c1))
    as (c2 & Henc2 & Hm & Hh).
  { unfold encode_query, Functools.wrapper. rewrite Hhit. eauto. }
  unfold search_generator. rewrite Henc, Henc2.
  destruct (Py.strip q); [done|]. simpl.
  destruct (cosine_similarity_0 similarity v g) as [sims|e]; [|done].
  destruct (length (top_k_indices argsort sims k) =? 0)%nat,
    (length (top_k_indices argsort sims k') =? 0)%nat;
    simpl;
    repeat match goal with
           | |- context [cards_for published_date g ?t] =>
               destruct (cards_for published_date g t)
           end; done.
Qed.

End search_and_cache.

(** ** More about the start-up *)

Section startup_outcomes.
Context {row record : Type}.
Implicit Types (fs : @assets row record) (g : @globals row record).

(** X15.  The process serves exactly when both files exist and the model
    is constructed, and then it serves the contents of the two files as
    they are, after printing the four progress lines. *)
Theorem startup_serves_iff fs g stdout :
  startup fs = Serving g stdout
  ↔ app_data_csv fs = Py.Ok (df g)
    ∧ app_embeddings_npy fs = Py.Ok (corpus_embeddings g)
    ∧ sentence_transformer fs = Py.Ok ()
    ∧ stdout = [LoadingAssets; LoadingModel; AssetsLoaded; Launching].
Proof.
  unfold startup, on_exception, file_not_found.
  destruct fs as [[data|e1] [emb|e2] [[]|e3]]; simpl;
    try destruct e1; try destruct e2; try destruct e3;
    try (split; [done|by intros (? & ? & ? & ?)]).
  destruct g as [d e]. simpl. split.
  - by intros [= -> -> <-].
  - by intros ([= ->] & [= ->] & _ & ->).
Qed.

(** X16.  The start-up exits exactly when its first failing step (reading
    the records, reading the embeddings, constructing the model) raises
    [FileNotFoundError]; every such exit has status 0 and prints the
    message about the two files, also when it is the model that was not
    found.  When the first failing step raises anything else, the
    exception is not handled: the process ends with it and prints no such
    message. *)
Theorem startup_exits_iff fs :
  ((∃ status stdout, startup fs = Exited status stdout)
   ↔ first_failure fs = Some Py.FileNotFoundError)
  ∧ (∀ status stdout,
       startup fs = Exited status stdout →
       status = 0 ∧ ErrorCouldNotFind ∈ stdout ∧ AssetsLoaded ∉ stdout)
  ∧ (∀ e stdout,
       startup fs = Crashed e stdout ↔
       first_failure fs = Some e ∧ e ≠ Py.FileNotFoundError
       ∧ stdout = (if app_data_csv fs is Py.Ok _
                   then if app_embeddings_npy fs is Py.Ok _
                        then [LoadingAssets; LoadingModel]
                        else [LoadingAssets]
                   else [LoadingAssets])).
Proof.
  assert (∀ (x : line) l, x ∈ l ↔ In x l) as Hin
    by (intros x l; apply list_elem_of_In).
  unfold startup, first_failure, on_exception, file_not_found. split_and!.
  - destruct fs as [[data|e1] [emb|e2] [[]|e3]]; simpl;
      try destruct e1; try destruct e2; try destruct e3;
      (split; [intros (s & out & Hs); try discriminate Hs; done
              |intros Hf; try discriminate Hf; eauto]).
  - intros status stdout.
    destruct fs as [[data|e1] [emb|e2] [[]|e3]]; simpl;
      try destruct e1; try destruct e2; try destruct e3;
      intros [= <- <-];
      rewrite !Hin; simpl; split_and!; try done; try tauto;
      intros Hor; decompose [or] Hor; done.
  - intros e stdout.
    destruct fs as [[data|e1] [emb|e2] [[]|e3]]; simpl;
      try destruct e1; try destruct e2; try destruct e3;
      (split;
       [intros [= <- <-]; by split_and!
       |intros ([= <-] & Hne & ->); done]).
Qed.

End startup_outcomes.

(** ** The shortened description of a card *)

Section card_text.
Implicit Types description : Py.str.

(** X17.  The shortened description keeps the first 150 characters of the
    description, is the description itself up to 150 characters, and has
    153 characters beyond that; so it is shorter than the description only
    from 154 characters on, and longer for 151 and 152. *)
Theorem short_desc_length description :
  take 150 (short_desc description) = take 150 description
  ∧ ((length description ≤ 150)%nat → short_desc description = description)
  ∧ ((150 < length description)%nat → length (short_desc description) = 153%nat)
  ∧ ((length (short_desc description) < length description)%nat
     ↔ (153 < length description)%nat).
Proof.
  unfold short_desc.
  destruct (Nat.ltb_spec 150 (length description)) as [Hlong|Hshort].
  - assert (length (take 150 description ++ ellipsis) = 153%nat) as Hlen
      by (rewrite length_app, length_take; change (length ellipsis) with 3%nat; lia).
    split_and!; [|lia|done|lia].
    rewrite take_app_le by (rewrite length_take; lia).
    rewrite take_take. by replace (150 `min` 150)%nat with 150%nat by lia.
  - split_and!; [done|done|lia|lia].
Qed.

End card_text.

(** ** The further properties at concrete inputs *)

(** X1 at the scores 3, 1, 2: the one index shown for [k = 1] is the first
    of the two shown for [k = 2]. *)
Lemma top_k_is_prefix_of_larger_k_witness :
  top_k_indices Demo.argsort [3; 1; 2] 1
  = take 1 (top_k_indices Demo.argsort [3; 1; 2] 2).
Proof.
  apply (top_k_is_prefix_of_larger_k Demo.argsort [3; 1; 2] 1 2).
  - apply insertion_argsort_spec.
  - lia.
Defined.

(** X2 at the scores 3, 1, 2: [k = -1] shows the best two rows. *)
Lemma top_k_negative_drops_lowest_witness :
  top_k_indices Demo.argsort [3; 1; 2] (-1) = [0%nat; 2%nat]
  ∧ length (top_k_indices Demo.argsort [3; 1; 2] (-1)) = 2%nat.
Proof.
  apply (top_k_negative_drops_lowest Demo.argsort [3; 1; 2] (-1)).
  - apply insertion_argsort_spec.
  - lia.
Defined.

(** X3 at the scores 3, 1, 2: row 0, shown first, scores at least as high
    as row 1. *)
Lemma top_k_first_is_best_witness : Numpy.ge_at [3; 1; 2] 0 1.
Proof.
  apply (top_k_first_is_best Demo.argsort [3; 1; 2] 2 0%nat [2%nat] 1%nat).
  - apply insertion_argsort_spec.
  - reflexivity.
  - simpl. lia.
Defined.

(** X5 at the corpus [Demo.three]: the result update of the query "a" with
    [k = 2]. *)
Lemma search_results_payload_witness :
  ∃ v, (encode_query Demo.model_encode Demo.query_a Functools.empty).1 = Py.Ok v
       ∧ Demo.query_a = Demo.query_a
       ∧ 2%nat = length [(0%nat, 100); (2%nat, 102)]
       ∧ [(0%nat, 100); (2%nat, 102)].*1
         = top_k_indices Demo.argsort (similarities Demo.similarity v Demo.three) 2
       ∧ Forall (λ card, df Demo.three !! card.1 = Some card.2)
           [(0%nat, 100); (2%nat, 102)].
Proof.
  apply (search_results_payload
           Demo.model_encode Demo.similarity Demo.argsort Demo.published_date
           Demo.three Demo.query_a 2 Functools.empty).
  vm_compute. right. left.
Defined.

(** X6 at the corpus [Demo.three]: [k = -3] gives the no-results message. *)
Lemma search_no_results_iff_witness :
  (Demo.search Demo.three Demo.query_a (-3) Functools.empty).1
  = Run [Searching; NoResults] (Py.Ok ())
  ↔ 0 < 3 ∧ -3 ≤ - 3.
Proof.
  apply (search_no_results_iff
           Demo.model_encode Demo.similarity Demo.argsort Demo.published_date
           Demo.three Demo.query_a (-3) Functools.empty 1
           (Functools.Cache [(Demo.query_a, 1)] 0 1)).
  - apply insertion_argsort_spec.
  - discriminate.
  - reflexivity.
Defined.

(** X7 at the corpus [Demo.three] and [k = -1]. *)
Lemma search_results_are_ranked_witness :
  NoDup [0%nat; 2%nat]
  ∧ Forall (λ i, (i < 3)%nat) [0%nat; 2%nat]
  ∧ (2 ≤ 3)%nat
  ∧ descending (ranked [3; 1; 2] [0%nat; 2%nat]).
Proof.
  apply (search_results_are_ranked
           Demo.model_encode Demo.similarity Demo.argsort Demo.published_date
           Demo.three Demo.query_a (-1) Functools.empty 1
           (Functools.Cache [(Demo.query_a, 1)] 0 1)
           Demo.query_a [(0%nat, 100); (2%nat, 102)] 2%nat).
  - apply insertion_argsort_spec.
  - reflexivity.
  - vm_compute. right. left.
Defined.

(** X8 with one record and two embedding rows, [k = 0]. *)
Lemma search_short_data_frame_raises_witness :
  ∃ e, Demo.search (Globals [100] [1; 2]) Demo.query_a 0 Functools.empty
       = (Run [Searching] (Py.Raise e), Functools.Cache [(Demo.query_a, 1)] 0 1)
       ∧ (e = Py.IndexError ∨ e = Py.ValueError)
       ∧ (all_dated Demo.published_date (Globals [100] [1; 2]) → e = Py.IndexError).
Proof.
  apply (search_short_data_frame_raises
           Demo.model_encode Demo.similarity Demo.argsort Demo.published_date
           (Globals [100] [1; 2]) Demo.query_a 0 Functools.empty 1).
  - apply insertion_argsort_spec.
  - discriminate.
  - reflexivity.
  - simpl. lia.
  - by left.
Defined.

(** X9 with three records and two embedding rows, [k = 5]: the third
    record is not shown. *)
Lemma search_long_data_frame_no_index_error_witness :
  Demo.search (Globals [100; 101; 102] [3; 1]) Demo.query_a 5 Functools.empty
  = (Run [Searching; Results Demo.query_a [(0%nat, 100); (1%nat, 101)] 2] (Py.Ok ()),
     Functools.Cache [(Demo.query_a, 1)] 0 1)
  ∧ Forall (λ i, (i < 2)%nat) [0%nat; 1%nat].
Proof.
  destruct (search_long_data_frame_no_index_error
              Demo.model_encode Demo.similarity Demo.argsort Demo.published_date
              (Globals [100; 101; 102] [3; 1]) Demo.query_a 5 Functools.empty 1
              (Functools.Cache [(Demo.query_a, 1)] 0 1))
    as (_ & Hbound & Hrun).
  - apply insertion_argsort_spec.
  - discriminate.
  - reflexivity.
  - simpl. lia.
  - split; [|exact Hbound]. apply Hrun.
    + discriminate.
    + apply (bool_decide_unpack _). vm_compute. exact I.
Defined.

(** X10 at the corpus [Demo.three]: the query "a" with [k = 2], and then
    again with [k = 3]. *)
Lemma search_again_is_served_from_cache_witness :
  let c1 := Functools.Cache [(Demo.query_a, 1)] 0 1 in
  (Demo.search Demo.three Demo.query_a 2 Functools.empty).2 = c1
  ∧ Functools.misses (Demo.search Demo.three Demo.query_a 3 c1).2 = 1%nat
  ∧ Functools.hits (Demo.search Demo.three Demo.query_a 3 c1).2 = 1%nat
  ∧ (Demo.search Demo.three Demo.query_a 2 c1).1
    = (Demo.search Demo.three Demo.query_a 2 Functools.empty).1.
Proof.
  apply (search_again_is_served_from_cache
           Demo.model_encode Demo.similarity Demo.argsort Demo.published_date
           Demo.three Demo.query_a 2 3 Functools.empty 1
           (Functools.Cache [(Demo.query_a, 1)] 0 1)).
  - discriminate.
  - reflexivity.
Defined.

(** X13 after the query "a" and one other query: "a" is still cached. *)
Lemma encode_query_retention_witness :
  Demo.query_a
  ∈ Functools.keys (cache_after Demo.model_encode ([] ++ Demo.query_a :: [Demo.one_more]))
  ↔ (length (Functools.recency
               (filter (λ k, Functools.succeeds Demo.model_encode k = true)
                       [Demo.one_more]))
     < 128)%nat.
Proof.
  apply (encode_query_retention Demo.model_encode [] Demo.query_a [Demo.one_more] 1).
  - reflexivity.
  - apply (bool_decide_unpack _). vm_compute. exact I.
Defined.

(** X14 after the query "a": three calls with the failing query "!". *)
Lemma encode_query_failures_not_cached_witness :
  let c := cache_after Demo.model_encode [Demo.query_a] in
  let c' := cache_after Demo.model_encode ([Demo.query_a] ++ replicate 3 Demo.query_bang) in
  Functools.misses c' = (Functools.misses c + 3)%nat
  ∧ Functools.hits c' = Functools.hits c
  ∧ Functools.links c' = Functools.links c.
Proof.
  apply (encode_query_failures_not_cached Demo.model_encode
           [Demo.query_a] Demo.query_bang Py.MemoryError 3).
  reflexivity.
Defined.

(** X18 at the corpus [Demo.three]: [k = 7] shows all three rows. *)
Lemma search_k_beyond_corpus_ranks_all_witness :
  Demo.search Demo.three Demo.query_a 7 Functools.empty
  = (Run [Searching;
          Results Demo.query_a [(0%nat, 100); (2%nat, 102); (1%nat, 101)] 3] (Py.Ok ()),
     Functools.Cache [(Demo.query_a, 1)] 0 1)
  ∧ [0%nat; 2%nat; 1%nat] ≡ₚ seq 0 3.
Proof.
  destruct (search_k_beyond_corpus_ranks_all
              Demo.model_encode Demo.similarity Demo.argsort Demo.published_date
              Demo.three Demo.query_a 7 Functools.empty 1
              (Functools.Cache [(Demo.query_a, 1)] 0 1))
    as (_ & Hperm & _ & _ & Hrun).
  - apply insertion_argsort_spec.
  - discriminate.
  - reflexivity.
  - reflexivity.
  - simpl. lia.
  - simpl. lia.
  - destruct Hrun as [Hrun _].
    + apply (bool_decide_unpack _). vm_compute. exact I.
    + split; [exact Hrun|exact Hperm].
Defined.

(** X19 over no rows at all, with [k = -2]. *)
Lemma search_empty_corpus_always_raises_witness :
  Demo.search (Globals [100] []) Demo.query_a (-2) Functools.empty
  = (Run [Searching] (Py.Raise Py.ValueError),
     Functools.Cache [(Demo.query_a, 1)] 0 1)
  ∧ (NoResults
     ∉ yielded (Demo.search (Globals [100] []) Demo.query_a (-2) Functools.empty).1).
Proof.
  apply (search_empty_corpus_always_raises
           Demo.model_encode Demo.similarity Demo.argsort Demo.published_date
           (Globals [100] []) Demo.query_a (-2) Functools.empty 1).
  - discriminate.
  - reflexivity.
  - reflexivity.
Defined.
